(** * Unified-Math-MCP-server: the tools of [main.py] over IEEE binary64

    The server exposes arithmetic, statistics and geometry functions as
    tools.  Every tool receives Python values, normalises them with
    [_as_number], [_as_int] or [_as_list] (the statistics tools apart)
    and delegates to the Python runtime.

    Floats are Rocq's primitive binary64 floats, integers are [Z],
    exceptions are an explicit error type threaded through a small error
    monad.  The builtins and the modules [math] and [statistics] are
    written out after CPython 3.11: [float], [int], [sum], [%], [sorted],
    [statistics.mean] and its siblings compute here what they compute
    there, messages of the exceptions included.  The transcendental
    routines of the C library are parameters. *)

From Stdlib Require Import ZArith QArith Qreduction List String Ascii Bool Lia Permutation.
From Stdlib Require Import Floats.
From Stdlib Require Import Sorted.
Import ListNotations.

Set Implicit Arguments.
Set Warnings "-inexact-float".

Local Open Scope string_scope.
Local Open Scope Z_scope.

(** ** Exceptions and results *)

(** The exception classes the tools can surface, each with its message. *)
Inductive exn : Type :=
| TypeError (msg : string)
| ValueError (msg : string)
| ZeroDivisionError (msg : string)
| OverflowError (msg : string)
| AttributeError (msg : string)
| StatisticsError (msg : string).

Inductive result (A : Type) : Type :=
| Ok (a : A)
| Err (e : exn).

Arguments Ok {A} a.
Arguments Err {A} e.

Definition bind {A B : Type} (r : result A) (k : A -> result B) : result B :=
  match r with
  | Ok a => k a
  | Err e => Err e
  end.

Declare Scope py_scope.
Delimit Scope py_scope with py.
Notation "x <- r ;; k" := (bind r (fun x => k))
  (at level 61, r at next level, right associativity) : py_scope.
Notation "' pat <- r ;; k" := (bind r (fun pat => k))
  (at level 61, pat pattern, r at next level, right associativity) : py_scope.
Local Open Scope py_scope.

(** [for x in l: acc = body acc x], where the body may raise. *)
Fixpoint for_each {A S : Type} (body : S -> A -> result S) (l : list A) (acc : S)
  : result S :=
  match l with
  | [] => Ok acc
  | x :: l' => acc' <- body acc x ;; for_each body l' acc'
  end.

(** [[f x for x in l]]: the first exception stops the comprehension. *)
Fixpoint list_comp {A B : Type} (f : A -> result B) (l : list A) : result (list B) :=
  match l with
  | [] => Ok []
  | x :: l' => y <- f x ;; ys <- list_comp f l' ;; Ok (y :: ys)
  end.

(** ** Python values *)

(** The values a caller can hand to a tool: integers, booleans (a subclass
    of [int]), floats, strings and [None]. *)
Inductive pyval : Type :=
| PyInt (z : Z)
| PyBool (b : bool)
| PyFloat (f : float)
| PyStr (s : string)
| PyNone.

(** ** Binary64 helpers *)

Module F.

(** Correctly rounded quotient [n / d] of two integers, [0 < d]
    (round to nearest, ties to even; an overflow gives an infinity). *)
Definition of_ratio (n : Z) (d : positive) : spec_float :=
  match n with
  | Z0 => S754_zero false
  | Zpos p =>
      let '(q, e, l) := SFdiv_core_binary prec emax (Zpos p) 0 (Zpos d) 0 in
      binary_round_aux prec emax false q e l
  | Zneg p =>
      let '(q, e, l) := SFdiv_core_binary prec emax (Zpos p) 0 (Zpos d) 0 in
      binary_round_aux prec emax true q e l
  end.

(** The exact rational value of a finite float. *)
Definition to_Q (f : float) : option Q :=
  match Prim2SF f with
  | S754_zero _ => Some (0 # 1)
  | S754_finite s m e =>
      let n := if s then Zneg m else Zpos m in
      Some (match e with
            | Zneg k => n # (2 ^ k)%positive
            | _ => (n * 2 ^ e) # 1
            end)
  | _ => None
  end.

(** C's [fmod]: the exact remainder of [x / y] with the sign of [x]. *)
Definition fmod (x y : float) : float :=
  match Prim2SF x, Prim2SF y with
  | S754_nan, _ | _, S754_nan => nan
  | S754_infinity _, _ | _, S754_zero _ => nan
  | S754_zero _, _ => x
  | S754_finite _ _ _, S754_infinity _ => x
  | S754_finite sx mx ex, S754_finite _ my ey =>
      let e := Z.min ex ey in
      let r := (Zpos mx * 2 ^ (ex - e)) mod (Zpos my * 2 ^ (ey - e)) in
      SF2Prim (binary_normalize prec emax (if sx then - r else r) e sx)
  end.

(** C's [copysign (0.0, y)]. *)
Definition zero_like (y : float) : float :=
  if get_sign y then neg_zero else zero.

End F.

(** ** Strings: [str.strip] and the float literal grammar *)

Module Str.

(** ASCII whitespace as [str.strip] sees it. *)
Definition is_space (c : ascii) : bool :=
  let n := Z.of_N (N_of_ascii c) in
  ((9 <=? n) && (n <=? 13)) || ((28 <=? n) && (n <=? 32)).

Fixpoint lstrip (l : list ascii) : list ascii :=
  match l with
  | c :: l' => if is_space c then lstrip l' else l
  | [] => []
  end.

Definition strip (s : string) : string :=
  string_of_list_ascii
    (rev (lstrip (rev (lstrip (list_ascii_of_string s))))).

Definition digit (c : ascii) : option Z :=
  let n := Z.of_N (N_of_ascii c) in
  if (48 <=? n) && (n <=? 57) then Some (n - 48) else None.

Definition lower (c : ascii) : ascii :=
  let n := N_of_ascii c in
  if ((65 <=? n) && (n <=? 90))%N then ascii_of_N (n + 32) else c.

(** The rest of a [digitpart] after its first digit: digits, each
    optionally preceded by one underscore.  Returns the accumulated
    value, the number of digits read and the unread input. *)
Fixpoint digits_tail (acc cnt : Z) (l : list ascii) : Z * Z * list ascii :=
  match l with
  | c :: l' =>
      match digit c with
      | Some d => digits_tail (10 * acc + d) (cnt + 1) l'
      | None =>
          if Ascii.eqb c "_" then
            match l' with
            | c' :: l'' =>
                match digit c' with
                | Some d => digits_tail (10 * acc + d) (cnt + 1) l''
                | None => (acc, cnt, l)
                end
            | [] => (acc, cnt, l)
            end
          else (acc, cnt, l)
      end
  | [] => (acc, cnt, l)
  end.

Definition digitpart (acc : Z) (l : list ascii) : option (Z * Z * list ascii) :=
  match l with
  | c :: l' =>
      match digit c with
      | Some d => Some (digits_tail (10 * acc + d) 1 l')
      | None => None
      end
  | [] => None
  end.

Definition sign (l : list ascii) : bool * list ascii :=
  match l with
  | c :: l' =>
      if Ascii.eqb c "-" then (true, l')
      else if Ascii.eqb c "+" then (false, l')
      else (false, l)
  | [] => (false, l)
  end.

(** [number ::= [digitpart] "." digitpart | digitpart ["."]]: the
    mantissa as an integer, the count of fraction digits, the rest. *)
Definition number (l : list ascii) : option (Z * Z * list ascii) :=
  match digitpart 0 l with
  | Some (i, _, r) =>
      match r with
      | c :: r' =>
          if Ascii.eqb c "." then
            match digitpart i r' with
            | Some (m, k, r'') => Some (m, k, r'')
            | None => Some (i, 0, r')
            end
          else Some (i, 0, r)
      | [] => Some (i, 0, [])
      end
  | None =>
      match l with
      | c :: r' => if Ascii.eqb c "." then digitpart 0 r' else None
      | [] => None
      end
  end.

(** [exponent ::= ("e" | "E") [sign] digitpart], or nothing; the whole
    input has to be consumed. *)
Definition exponent (l : list ascii) : option Z :=
  match l with
  | [] => Some 0
  | c :: l' =>
      if Ascii.eqb (lower c) "e" then
        let '(neg, l'') := sign l' in
        match digitpart 0 l'' with
        | Some (e, _, []) => Some (if neg then - e else e)
        | _ => None
        end
      else None
  end.

(** [m * 10 ^ e], correctly rounded. *)
Definition decimal (neg : bool) (m e : Z) : spec_float :=
  if m =? 0 then S754_zero neg
  else
    let n := if neg then - m else m in
    if 0 <=? e then F.of_ratio (n * 10 ^ e) 1
    else F.of_ratio n (Z.to_pos (10 ^ (- e))).

(** Whitespace as C's [isspace] sees it. *)
Definition is_c_space (c : ascii) : bool :=
  let n := Z.of_N (N_of_ascii c) in
  ((9 <=? n) && (n <=? 13)) || (n =? 32).

Fixpoint c_lstrip (l : list ascii) : list ascii :=
  match l with
  | c :: l' => if is_c_space c then c_lstrip l' else l
  | [] => []
  end.

(** [float(s)] on a string: [None] when [s], without the white space
    around it, is not a float literal. *)
Definition to_float (s : string) : option float :=
  let body := rev (c_lstrip (rev (c_lstrip (list_ascii_of_string s)))) in
  let '(neg, l) := sign body in
  let word := string_of_list_ascii (map lower l) in
  if String.eqb word "inf" || String.eqb word "infinity" then
    Some (SF2Prim (S754_infinity neg))
  else if String.eqb word "nan" then Some nan
  else
    match number l with
    | Some (m, k, r) =>
        match exponent r with
        | Some e => Some (SF2Prim (decimal neg m (e - k)))
        | None => None
        end
    | None => None
    end.

End Str.

(** ** Builtins of the runtime *)

Module Py.

(** [float(z)] for an [int]: nearest float, ties to even. *)
Definition float_of_int (z : Z) : result float :=
  match binary_normalize prec emax z 0 false with
  | S754_infinity _ => Err (OverflowError "int too large to convert to float")
  | sf => Ok (SF2Prim sf)
  end.

(** The builtin [float(x)]. *)
Definition to_float (x : pyval) : result float :=
  match x with
  | PyFloat f => Ok f
  | PyInt z => float_of_int z
  | PyBool b => float_of_int (Z.b2z b)
  | PyStr s =>
      match Str.to_float s with
      | Some f => Ok f
      | None => Err (ValueError ("could not convert string to float: '" ++ s ++ "'"))
      end
  | PyNone =>
      Err (TypeError "float() argument must be a string or a real number, not 'NoneType'")
  end.

(** [float.is_integer]: finite and without fractional bits. *)
Definition is_integer (f : PrimFloat.float) : bool :=
  match Prim2SF f with
  | S754_zero _ => true
  | S754_finite _ m e =>
      match e with
      | Zneg k => Zpos m mod 2 ^ Zpos k =? 0
      | _ => true
      end
  | _ => false
  end.

(** The builtin [int(f)] on a float: truncation towards zero. *)
Definition int_of_float (f : PrimFloat.float) : result Z :=
  match Prim2SF f with
  | S754_zero _ => Ok 0
  | S754_finite s m e =>
      let a := match e with
               | Zneg k => Zpos m / 2 ^ Zpos k
               | _ => Zpos m * 2 ^ e
               end in
      Ok (if s then - a else a)
  | S754_infinity _ => Err (OverflowError "cannot convert float infinity to integer")
  | S754_nan => Err (ValueError "cannot convert float NaN to integer")
  end.

(** The builtin [sum] over a non-empty list of floats: the items are
    added to the start value [0] from left to right, each addition
    rounded (CPython 3.12 and later also carry a compensation term
    through this loop; the model is that of 3.11). *)
Definition sum (l : list PrimFloat.float) : PrimFloat.float :=
  fold_left PrimFloat.add l 0%float.

End Py.

(** ** Arithmetic and ordering of Python values *)

Module PyOps.

Inductive pytype : Type := TInt | TBool | TFloat | TStr | TNoneType.

Definition type_of (x : pyval) : pytype :=
  match x with
  | PyInt _ => TInt
  | PyBool _ => TBool
  | PyFloat _ => TFloat
  | PyStr _ => TStr
  | PyNone => TNoneType
  end.

Definition type_name (T : pytype) : string :=
  match T with
  | TInt => "int"
  | TBool => "bool"
  | TFloat => "float"
  | TStr => "str"
  | TNoneType => "NoneType"
  end.

Definition pytype_eqb (T S : pytype) : bool :=
  match T, S with
  | TInt, TInt | TBool, TBool | TFloat, TFloat | TStr, TStr
  | TNoneType, TNoneType => true
  | _, _ => false
  end.

(** [n / d] on two [int]s: true division, correctly rounded. *)
Definition int_truediv (n d : Z) : result float :=
  match d with
  | Z0 => Err (ZeroDivisionError "division by zero")
  | Zpos p =>
      match F.of_ratio n p with
      | S754_infinity _ =>
          Err (OverflowError "integer division result too large for a float")
      | sf => Ok (SF2Prim sf)
      end
  | Zneg p =>
      match F.of_ratio (- n) p with
      | S754_infinity _ =>
          Err (OverflowError "integer division result too large for a float")
      | sf => Ok (SF2Prim sf)
      end
  end.

(** [float % float]. *)
Definition float_rem (v w : float) : result float :=
  if (w =? 0)%float then Err (ZeroDivisionError "float modulo")
  else
    let m := F.fmod v w in
    if (m =? 0)%float then Ok (F.zero_like w)
    else if negb (Bool.eqb (w <? 0)%float (m <? 0)%float) then Ok (m + w)%float
    else Ok m.

(** [z < f] and [f < z] for an [int] and a [float], compared exactly. *)
Definition int_lt_float (z : Z) (f : float) : bool :=
  match F.to_Q f with
  | Some q => match (z # 1 ?= q)%Q with Lt => true | _ => false end
  | None => (0 <? f)%float
  end.

Definition float_lt_int (f : float) (z : Z) : bool :=
  match F.to_Q f with
  | Some q => match (q ?= z # 1)%Q with Lt => true | _ => false end
  | None => (f <? 0)%float
  end.

Fixpoint ascii_list_ltb (a b : list ascii) : bool :=
  match a, b with
  | _, [] => false
  | [], _ :: _ => true
  | x :: a', y :: b' =>
      match (N_of_ascii x ?= N_of_ascii y)%N with
      | Lt => true
      | Gt => false
      | Eq => ascii_list_ltb a' b'
      end
  end.

Definition not_supported (op : string) (x y : pyval) : exn :=
  TypeError ("'" ++ op ++ "' not supported between instances of '"
             ++ type_name (type_of x) ++ "' and '" ++ type_name (type_of y) ++ "'").

Definition as_int (x : pyval) : option Z :=
  match x with
  | PyInt z => Some z
  | PyBool b => Some (Z.b2z b)
  | _ => None
  end.

(** [x < y]. *)
Definition lt (x y : pyval) : result bool :=
  match x, y with
  | PyStr a, PyStr b =>
      Ok (ascii_list_ltb (list_ascii_of_string a) (list_ascii_of_string b))
  | PyFloat f, PyFloat g => Ok (f <? g)%float
  | PyFloat f, _ =>
      match as_int y with
      | Some z => Ok (float_lt_int f z)
      | None => Err (not_supported "<" x y)
      end
  | _, PyFloat g =>
      match as_int x with
      | Some z => Ok (int_lt_float z g)
      | None => Err (not_supported "<" x y)
      end
  | _, _ =>
      match as_int x, as_int y with
      | Some a, Some b => Ok (a <? b)
      | _, _ => Err (not_supported "<" x y)
      end
  end.

Definition dquote : string := String (ascii_of_nat 34) EmptyString.

Definition unsupported (op : string) (x y : pyval) : exn :=
  TypeError ("unsupported operand type(s) for " ++ op ++ ": '"
             ++ type_name (type_of x) ++ "' and '" ++ type_name (type_of y) ++ "'").

(** [x + y]. *)
Definition add (x y : pyval) : result pyval :=
  match x, y with
  | PyStr a, PyStr b => Ok (PyStr (a ++ b))
  | PyStr _, _ => Err (TypeError ("can only concatenate str (not " ++ dquote
                                 ++ type_name (type_of y) ++ dquote ++ ") to str"))
  | PyFloat f, PyFloat g => Ok (PyFloat (f + g))
  | PyFloat f, _ =>
      match as_int y with
      | Some z => g <- Py.float_of_int z ;; Ok (PyFloat (f + g))
      | None => Err (unsupported "+" x y)
      end
  | _, PyFloat g =>
      match as_int x with
      | Some z => f <- Py.float_of_int z ;; Ok (PyFloat (f + g))
      | None => Err (unsupported "+" x y)
      end
  | _, _ =>
      match as_int x, as_int y with
      | Some a, Some b => Ok (PyInt (a + b))
      | _, _ => Err (unsupported "+" x y)
      end
  end.

(** [x / 2]. *)
Definition halve (x : pyval) : result pyval :=
  match x with
  | PyFloat f => Ok (PyFloat (f / 2))
  | PyInt z => f <- int_truediv z 2 ;; Ok (PyFloat f)
  | PyBool b => f <- int_truediv (Z.b2z b) 2 ;; Ok (PyFloat f)
  | _ => Err (unsupported "/" x (PyInt 2))
  end.

(** [sorted]: a stable insertion sort on [<].  It returns what
    [list.sort] returns whenever [<] orders the data (no NaN among
    them).  A comparison that raises stops the sort; on data of mixed
    types [list.sort] raises the same TypeError, possibly naming the two
    types in the other order. *)
Fixpoint insert (x : pyval) (l : list pyval) : result (list pyval) :=
  match l with
  | [] => Ok [x]
  | y :: l' =>
      b <- lt y x ;;
      if b then (r <- insert x l' ;; Ok (y :: r))
      else Ok (x :: l)
  end.

Fixpoint sorted_rev (l : list pyval) : result (list pyval) :=
  match l with
  | [] => Ok []
  | x :: l' => s <- sorted_rev l' ;; insert x s
  end.

Definition sorted (l : list pyval) : result (list pyval) := sorted_rev l.

End PyOps.

(** ** The [statistics] module (CPython 3.11)

    Sums are taken exactly over the rationals and rounded once at the
    end; non-finite floats are summed apart, as floats.  The result type
    [T] is folded along the data with [_coerce]. *)

Module statistics.

Import PyOps.

(** What [_exact_ratio] returns: [(n, d)] or, for a NaN or an infinity,
    [(x, None)]. *)
Inductive ratio : Type :=
| Finite (q : Q)
| Special (f : float).

Definition _coerce (T S : pytype) : result pytype :=
  if pytype_eqb T S then Ok T
  else
    match S, T with
    | (TInt | TBool), _ => Ok T
    | _, (TInt | TBool) => Ok S
    | _, _ =>
        Err (TypeError ("don't know how to coerce " ++ type_name T
                        ++ " and " ++ type_name S))
    end.

Definition _exact_ratio (x : pyval) : result ratio :=
  match x with
  | PyInt z => Ok (Finite (z # 1))
  | PyBool b => Ok (Finite (Z.b2z b # 1))
  | PyFloat f =>
      match F.to_Q f with
      | Some q => Ok (Finite q)
      | None => Ok (Special f)
      end
  | _ =>
      Err (TypeError ("can't convert type '" ++ type_name (type_of x)
                      ++ "' to numerator/denominator"))
  end.

(** [partials[None] = partials.get(None, 0) + x]. *)
Definition add_special (s : option float) (x : float) : option float :=
  match s with
  | None => Some (0 + x)%float
  | Some t => Some (t + x)%float
  end.

Record sum_acc : Type := {
  sum_T : pytype;
  sum_count : Z;
  sum_total : Q;
  sum_special : option float
}.

Definition _sum_step (a : sum_acc) (x : pyval) : result sum_acc :=
  r <- _exact_ratio x ;;
  T <- _coerce (sum_T a) (type_of x) ;;
  match r with
  | Finite q =>
      Ok {| sum_T := T; sum_count := sum_count a + 1;
            sum_total := Qplus (sum_total a) q;
            sum_special := sum_special a |}
  | Special f =>
      Ok {| sum_T := T; sum_count := sum_count a + 1;
            sum_total := sum_total a;
            sum_special := add_special (sum_special a) f |}
  end.

(** [_sum(data) -> (T, total, count)]. *)
Definition _sum (data : list pyval) : result (pytype * ratio * Z) :=
  a <- for_each _sum_step data
         {| sum_T := TInt; sum_count := 0; sum_total := 0 # 1;
            sum_special := None |} ;;
  match sum_special a with
  | Some f => Ok (sum_T a, Special f, sum_count a)
  | None => Ok (sum_T a, Finite (sum_total a), sum_count a)
  end.

(** [value / n] for a count [n]. *)
Definition div_count (value : ratio) (n : Z) : result ratio :=
  match value with
  | Finite q => Ok (Finite (Qdiv q (n # 1)))
  | Special f => d <- Py.float_of_int n ;; Ok (Special (f / d))
  end.

(** [_convert(value, T)]: back to the type of the data. *)
Definition _convert (value : ratio) (T : pytype) : result pyval :=
  match value with
  | Special f => Ok (PyFloat f)
  | Finite q =>
      let r := Qred q in
      match T with
      | TInt | TBool =>
          if (Zpos (Qden r) =? 1) then Ok (PyInt (Qnum r))
          else (f <- int_truediv (Qnum r) (Zpos (Qden r)) ;; Ok (PyFloat f))
      | _ => f <- int_truediv (Qnum r) (Zpos (Qden r)) ;; Ok (PyFloat f)
      end
  end.

Definition mean (data : list pyval) : result pyval :=
  '(T, total, n) <- _sum data ;;
  if n <? 1 then Err (StatisticsError "mean requires at least one data point")
  else (v <- div_count total n ;; _convert v T).

Definition median (data : list pyval) : result pyval :=
  data <- sorted data ;;
  let n := List.length data in
  if (n =? 0)%nat then Err (StatisticsError "no median for empty data")
  else if (n mod 2 =? 1)%nat then Ok (nth (n / 2) data PyNone)
  else
    let i := (n / 2)%nat in
    s <- add (nth (i - 1) data PyNone) (nth i data PyNone) ;;
    halve s.

Record ss_acc : Type := {
  ss_T : pytype;
  ss_count : Z;
  ss_sx : Q;
  ss_sxx : Q;
  ss_special : option float
}.

Definition _ss_step (a : ss_acc) (x : pyval) : result ss_acc :=
  r <- _exact_ratio x ;;
  T <- _coerce (ss_T a) (type_of x) ;;
  match r with
  | Finite q =>
      Ok {| ss_T := T; ss_count := ss_count a + 1;
            ss_sx := Qplus (ss_sx a) q;
            ss_sxx := Qplus (ss_sxx a) (Qmult q q);
            ss_special := ss_special a |}
  | Special f =>
      Ok {| ss_T := T; ss_count := ss_count a + 1;
            ss_sx := ss_sx a; ss_sxx := ss_sxx a;
            ss_special := add_special (ss_special a) f |}
  end.

(** [_ss(data) -> (T, ssd, count)]: the exact sum of squared deviations
    from the mean, [(count * sxx - sx * sx) / count]. *)
Definition _ss (data : list pyval) : result (pytype * ratio * Z) :=
  a <- for_each _ss_step data
         {| ss_T := TInt; ss_count := 0; ss_sx := 0 # 1; ss_sxx := 0 # 1;
            ss_special := None |} ;;
  let count := ss_count a in
  if count =? 0 then Ok (ss_T a, Finite (0 # 1), count)
  else
    match ss_special a with
    | Some f => Ok (ss_T a, Special f, count)
    | None =>
        let sx := ss_sx a in
        Ok (ss_T a,
            Finite (Qdiv (Qminus (Qmult (count # 1) (ss_sxx a)) (Qmult sx sx))
                         (count # 1)),
            count)
    end.

Definition variance (data : list pyval) : result pyval :=
  '(T, ss, n) <- _ss data ;;
  if n <? 2 then Err (StatisticsError "variance requires at least two data points")
  else (v <- div_count ss (n - 1) ;; _convert v T).

Definition bit_length (z : Z) : Z :=
  match z with
  | Z0 => 0
  | Zpos p | Zneg p => Zpos (Pos.size p)
  end.

(** Square root of [n / m], rounded to the nearest integer with
    round-to-odd. *)
Definition _integer_sqrt_of_frac_rto (n m : Z) : Z :=
  let a := Z.sqrt (n / m) in
  if a * a * m =? n then a else Z.lor a 1.

Definition _sqrt_bit_width : Z := 2 * 53 + 3.

(** Square root of [n / m] as a float, correctly rounded. *)
Definition _float_sqrt_of_frac (n m : Z) : result float :=
  let q := (bit_length n - bit_length m - _sqrt_bit_width) / 2 in
  if 0 <=? q then
    int_truediv (Z.shiftl (_integer_sqrt_of_frac_rto n (Z.shiftl m (2 * q))) q) 1
  else
    int_truediv (_integer_sqrt_of_frac_rto (Z.shiftl n (- 2 * q)) m)
                (Z.shiftl 1 (- q)).

Definition stdev (data : list pyval) : result pyval :=
  '(T, ss, n) <- _ss data ;;
  if n <? 2 then Err (StatisticsError "stdev requires at least two data points")
  else
    mss <- div_count ss (n - 1) ;;
    match mss with
    | Finite q =>
        let r := Qred q in
        f <- _float_sqrt_of_frac (Qnum r) (Zpos (Qden r)) ;; Ok (PyFloat f)
    | Special _ =>
        Err (AttributeError "'float' object has no attribute 'numerator'")
    end.

End statistics.

(** ** The [math] module *)

Module math.

Import PyOps.

Definition pi : float := 0x1.921fb54442d18p+1%float.
Definition e : float := 0x1.5bf0a8b145769p+1%float.

Definition domain_error : exn := ValueError "math domain error".

(** [math.sqrt]. *)
Definition sqrt (x : float) : result float :=
  let r := PrimFloat.sqrt x in
  if is_nan r && negb (is_nan x) then Err domain_error else Ok r.

(** The largest C [long] (64-bit Linux). *)
Definition LONG_MAX : Z := 2 ^ 63 - 1.

(** [math.factorial] on an [int]: the argument is read as a C [long];
    one that exceeds [LONG_MAX] is refused first, a negative one next. *)
Definition factorial (n : Z) : result Z :=
  if LONG_MAX <? n then
    Err (OverflowError "factorial() argument should not exceed 9223372036854775807")
  else if n <? 0 then Err (ValueError "factorial() not defined for negative values")
  else Ok (Z.of_nat (fact (Z.to_nat n))).

(** [math.gcd] and [math.lcm] on [int]s. *)

Definition gcd (a b : Z) : Z := Z.gcd a b.
Definition lcm (a b : Z) : Z := Z.abs (Z.lcm a b).

(** [math.radians] and [math.degrees]: one multiplication by a constant. *)
Definition radians (x : float) : float := (x * (pi / 180))%float.
Definition degrees (x : float) : float := (x * (180 / pi))%float.

(** [math.floor] and [math.ceil] on a float: an [int]. *)
Definition floor (x : float) : result Z :=
  match Prim2SF x with
  | S754_zero _ => Ok 0
  | S754_finite s m e =>
      let n := if s then Zneg m else Zpos m in
      Ok (match e with
          | Zneg k => n / 2 ^ Zpos k
          | _ => n * 2 ^ e
          end)
  | S754_infinity _ => Err (OverflowError "cannot convert float infinity to integer")
  | S754_nan => Err (ValueError "cannot convert float NaN to integer")
  end.

Definition ceil (x : float) : result Z :=
  match Prim2SF x with
  | S754_zero _ => Ok 0
  | S754_finite s m e =>
      let n := if s then Zneg m else Zpos m in
      Ok (match e with
          | Zneg k => - ((- n) / 2 ^ Zpos k)
          | _ => n * 2 ^ e
          end)
  | S754_infinity _ => Err (OverflowError "cannot convert float infinity to integer")
  | S754_nan => Err (ValueError "cannot convert float NaN to integer")
  end.

Section Libm.

(** The C library's natural logarithm, on finite positive doubles. *)
Variable libm_log : float -> float.

(** [m_log], with the domain check [math_1] adds. *)
Definition m_log (x : float) : result float :=
  let r :=
    if is_nan x then x
    else if is_infinity x then (if (0 <? x)%float then x else nan)
    else if (0 <? x)%float then libm_log x
    else if (x =? 0)%float then neg_infinity
    else nan in
  if is_nan r && negb (is_nan x) then Err domain_error
  else if is_infinity r && negb (is_nan x || is_infinity x) then Err domain_error
  else Ok r.

(** [math.log(x, base)]: the quotient of two natural logarithms. *)
Definition log (x base : float) : result float :=
  num <- m_log x ;;
  den <- m_log base ;;
  if (den =? 0)%float then Err (ZeroDivisionError "float division by zero")
  else Ok (num / den)%float.

End Libm.

End math.

(** ** The tools of [main.py]

    The tools are declared [async] but none of them awaits: each is a
    function from its arguments to a value or an exception.  A parameter
    with a default value is an [option]. *)

Module main.

(** *** Helper functions *)

(** Converts input to a float, raises [TypeError] if invalid.  Among the
    values modelled only [None] reaches the [raise], where the f-string
    reads ["Invalid number: None"]. *)
Definition _as_number (x : pyval) : result float :=
  match x with
  | PyInt _ | PyBool _ | PyFloat _ => Py.to_float x
  | PyStr s => Py.to_float (PyStr (Str.strip s))
  | PyNone => Err (TypeError "Invalid number: None")
  end.

(** Converts input to an integer, raises [ValueError] if not an integer. *)
Definition _as_int (x : pyval) : result Z :=
  val <- _as_number x ;;
  if negb (Py.is_integer val) then Err (ValueError "Expected integer")
  else Py.int_of_float val.

(** Ensures input is a list of floats. *)
Definition _as_list (data : list pyval) : result (list float) :=
  match data with
  | [] => Err (ValueError "Input list cannot be empty")
  | _ => list_comp _as_number data
  end.

(** The routines of the C library and of the runtime that the tools
    call and this development does not define: each is a parameter of
    the tools that use it. *)
Section Runtime.

Variable libm_log : float -> float.
Variables math_pow math_hypot float_pow : float -> float -> result float.
Variables math_log10 math_sin math_cos math_tan : float -> result float.
Variable math_dist : list float -> list float -> result float.
Variable py_round : float -> Z -> result float.
Variable random_randint : Z -> Z -> result Z.

(** *** 1. Basic arithmetic *)

Definition add (numbers : list pyval) : result float :=
  nums <- _as_list numbers ;;
  Ok (Py.sum nums).

Definition multiply (numbers : list pyval) : result float :=
  nums <- _as_list numbers ;;
  for_each (fun result n => Ok (result * n)%float) nums 1%float.

Definition subtract (numbers : list pyval) : result float :=
  nums <- _as_list numbers ;;
  let result := hd 0%float nums in
  for_each (fun result n => Ok (result - n)%float) (tl nums) result.

Definition divide (numbers : list pyval) : result float :=
  nums <- _as_list numbers ;;
  let result := hd 0%float nums in
  for_each
    (fun result n =>
       if (n =? 0)%float then Err (ValueError "Division by zero")
       else Ok (result / n)%float)
    (tl nums) result.

Definition divide_multiple (numbers : list pyval) : result float :=
  nums <- _as_list numbers ;;
  let result := hd 0%float nums in
  for_each
    (fun result n =>
       if (n =? 0)%float then Err (ValueError "Division by zero")
       else Ok (result / n)%float)
    (tl nums) result.

Definition modulo (a b : pyval) : result float :=
  x <- _as_number a ;;
  y <- _as_number b ;;
  PyOps.float_rem x y.


(** *** 2. Advanced math *)

Definition sqrt (x : pyval) : result float :=
  val <- _as_number x ;;
  if (val <? 0)%float then
    Err (ValueError "Cannot calculate square root of a negative number.")
  else math.sqrt val.

(** The value of the parameter [base] when the caller leaves it out. *)
Definition log_default_base : pyval := PyFloat 2.718281828%float.

Definition log (x : pyval) (base : option pyval) : result float :=
  let base := match base with Some b => b | None => log_default_base end in
  val <- _as_number x ;;
  b <- _as_number base ;;
  if (val <=? 0)%float then Err (ValueError "Logarithm input must be positive.")
  else math.log libm_log val b.


(** *** 3. Number theory *)

Definition factorial (x : pyval) : result Z :=
  n <- _as_int x ;;
  if n <? 0 then Err (ValueError "Factorial is not defined for negative numbers.")
  else math.factorial n.

Definition gcd (a b : pyval) : result Z :=
  x <- _as_int a ;;
  y <- _as_int b ;;
  Ok (math.gcd x y).

Definition lcm (a b : pyval) : result Z :=
  x <- _as_int a ;;
  y <- _as_int b ;;
  Ok (math.lcm x y).

(** *** 4. Trigonometry *)




Definition degrees_to_radians (degrees : pyval) : result float :=
  val <- _as_number degrees ;; Ok (math.radians val).

Definition radians_to_degrees (radians : pyval) : result float :=
  val <- _as_number radians ;; Ok (math.degrees val).

(** *** 5. Statistics *)

Definition mean (data : list pyval) : result pyval :=
  match data with
  | [] => Err (ValueError "Input list cannot be empty.")
  | _ => statistics.mean data
  end.

Definition median (data : list pyval) : result pyval :=
  match data with
  | [] => Err (ValueError "Input list cannot be empty.")
  | _ => statistics.median data
  end.

Definition stdev (data : list pyval) : result pyval :=
  if (List.length data <? 2)%nat then
    Err (ValueError "Standard deviation requires at least two data points.")
  else statistics.stdev data.

Definition variance (data : list pyval) : result pyval :=
  if (List.length data <? 2)%nat then
    Err (ValueError "Variance requires at least two data points.")
  else statistics.variance data.

(** *** 6. Geometry *)




(** *** 7. Utilities and rounding *)

Definition abs_val (x : pyval) : result float :=
  val <- _as_number x ;;
  Ok (abs val).

Definition floor (x : pyval) : result Z :=
  val <- _as_number x ;; math.floor val.

Definition ceil (x : pyval) : result Z :=
  val <- _as_number x ;; math.ceil val.



Definition get_pi : result float := Ok math.pi.

Definition get_e : result float := Ok math.e.

(** *** 8. Distance between points *)


Definition manhattan_distance (point1 point2 : list pyval) : result float :=
  p1 <- _as_list point1 ;;
  p2 <- _as_list point2 ;;
  if negb (List.length p1 =? List.length p2)%nat then
    Err (ValueError "Points must have the same number of dimensions.")
  else Ok (Py.sum (map (fun '(a, b) => abs (a - b)%float) (combine p1 p2))).

Definition absolute_difference (a b : pyval) : result float :=
  x <- _as_number a ;;
  y <- _as_number b ;;
  Ok (abs (x - y)%float).

End Runtime.

End main.

(** ** The error kinds of the interface

    Each named kind stands for the raise sites of [main.py] (and, for
    [InvalidNumber], the failure of [float] on a string) that produce
    it; any other exception is not one of the named kinds. *)

Inductive error_kind : Type :=
| InvalidNumber
| NotAnInteger
| EmptyInput
| DivisionByZero
| NegativeInput
| NonPositiveInput
| InsufficientData
| DimensionMismatch.

Definition kind_of (e : exn) : option error_kind :=
  match e with
  | TypeError m =>
      if String.prefix "Invalid number: " m then Some InvalidNumber else None
  | ValueError m =>
      if String.prefix "could not convert string to float: " m then Some InvalidNumber
      else if String.eqb m "Expected integer" then Some NotAnInteger
      else if String.eqb m "Input list cannot be empty"
              || String.eqb m "Input list cannot be empty." then Some EmptyInput
      else if String.eqb m "Division by zero" then Some DivisionByZero
      else if String.eqb m "Cannot calculate square root of a negative number."
              || String.eqb m "Factorial is not defined for negative numbers."
              || String.eqb m "Radius cannot be negative." then Some NegativeInput
      else if String.eqb m "Logarithm input must be positive." then Some NonPositiveInput
      else if String.eqb m "Standard deviation requires at least two data points."
              || String.eqb m "Variance requires at least two data points."
           then Some InsufficientData
      else if String.eqb m "Points must have the same number of dimensions."
           then Some DimensionMismatch
      else None
  | _ => None
  end.

(** [r] is a failure of kind [k]. *)
Definition fails_with {A : Type} (r : result A) (k : error_kind) : Prop :=
  exists e, r = Err e /\ kind_of e = Some k.

(** [r] is a failure outside the named kinds. *)
Definition fails_unnamed {A : Type} (r : result A) : Prop :=
  exists e, r = Err e /\ kind_of e = None.

(** ** Vocabulary of the statements *)

(** The body of the loop of [divide] and [divide_multiple]. *)
Definition div_body : float -> float -> result float :=
  fun result n =>
    if (n =? 0)%float then Err (ValueError "Division by zero")
    else Ok (result / n)%float.

(** [f] is finite and its exact value is the integer [z]: [f] has a zero
    fractional part. *)
Definition integral (f : float) (z : Z) : Prop :=
  exists q, F.to_Q f = Some q /\ Qeq q (inject_Z z).

(** [r] raises nothing but exceptions outside the named kinds. *)
Definition unnamed {A : Type} (r : result A) : Prop :=
  forall e, r = Err e -> kind_of e = None.

(** An [int], a [bool] or a finite [float]. *)
Definition finite_number (x : pyval) : Prop :=
  match x with
  | PyInt _ | PyBool _ => True
  | PyFloat f => F.to_Q f <> None
  | _ => False
  end.

Definition numeric_type (T : PyOps.pytype) : Prop :=
  T = PyOps.TInt \/ T = PyOps.TBool \/ T = PyOps.TFloat.

Definition is_str (x : pyval) : Prop :=
  match x with PyStr _ => True | _ => False end.

Definition is_TypeError (e : exn) : Prop := exists msg, e = TypeError msg.

(** [r] is a TypeError outside the named kinds. *)
Definition raises_TypeError {A : Type} (r : result A) : Prop :=
  exists msg, r = Err (TypeError msg) /\ kind_of (TypeError msg) = None.

(** [|a - b|] on a pair of coordinates. *)
Definition abs_diff (ab : float * float) : float :=
  let '(a, b) := ab in abs (a - b)%float.


(** [0.0 + a] is [a], except that it is [0.0] for [a = -0.0]. *)
Definition SFplus_zero (a : spec_float) : spec_float :=
  match a with
  | S754_zero _ => S754_zero false
  | _ => a
  end.

(** The correctly rounded natural logarithm at the two arguments that
    [log(10)] evaluates. *)
Definition libm_log_sample (x : float) : float :=
  if (x =? 10)%float then 0x1.26bb1bbb55516p+1%float
  else if (x =? 2.718281828)%float then 0x1.fffffffe8ca4cp-1%float
  else nan.

(** [w] consists of white space only. *)
Definition all_space (w : string) : Prop :=
  Forall (fun c => Str.is_space c = true) (list_ascii_of_string w).

(** A value that is not below zero: a zero, a positive number,
    [+inf], or NaN. *)
Definition SFnonneg (x : spec_float) : Prop :=
  match x with
  | S754_zero _ | S754_nan => True
  | S754_infinity s | S754_finite s _ _ => s = false
  end.

(** The base [log] uses. *)
Definition log_base (base : option pyval) : pyval :=
  match base with Some b => b | None => main.log_default_base end.

(** The type [statistics] computes in for copies of [x]. *)
Definition const_T (x : pyval) : PyOps.pytype :=
  match x with
  | PyFloat _ => PyOps.TFloat
  | _ => PyOps.TInt
  end.

(** Zero in the type [statistics] returns for copies of [x]. *)
Definition zero_of (x : pyval) : pyval :=
  match x with
  | PyFloat _ => PyFloat 0
  | _ => PyInt 0
  end.

(** The sum of a list of integers. *)
Definition Zsum (zs : list Z) : Z := fold_right Z.add 0 zs.

(** * Properties *)

Import main.

(** ** The error monad and its loops *)

Lemma list_comp_length {A B : Type} (f : A -> result B) (l : list A) (r : list B) :
  list_comp f l = Ok r -> List.length r = List.length l.
Proof.
  revert r. induction l as [| x l IH]; simpl; intros r H.
  - now inversion H.
  - destruct (f x) as [y | e]; simpl in H; [| discriminate ].
    destruct (list_comp f l) as [ys | e]; simpl in H; [| discriminate ].
    inversion H; subst. simpl. now rewrite (IH ys).
Qed.

(** A loop whose body never raises is a left fold. *)
Lemma for_each_pure {A S : Type} (g : S -> A -> S) (l : list A) (acc : S) :
  for_each (fun s x => Ok (g s x)) l acc = Ok (fold_left g l acc).
Proof.
  revert acc. induction l as [| x l IH]; simpl; intros acc; [ reflexivity | apply IH ].
Qed.

Lemma _as_list_nonempty (L : list pyval) (nums : list float) :
  _as_list L = Ok nums -> L <> [] /\ nums <> [] /\ List.length nums = List.length L.
Proof.
  destruct L as [| x L]; [ discriminate |].
  unfold _as_list. intros H.
  pose proof (list_comp_length _ _ H) as Hlen.
  split; [ discriminate |]. split; [| exact Hlen ].
  destruct nums; [ discriminate | discriminate ].
Qed.

(** ** Division *)

Lemma div_loop_zero (l : list float) (acc : float) :
  Exists (fun n => (n =? 0)%float = true) l ->
  for_each div_body l acc = Err (ValueError "Division by zero").
Proof.
  intros H. revert acc. induction H as [n l Hn | n l _ IH]; intros acc; simpl.
  - unfold div_body at 1. now rewrite Hn.
  - unfold div_body at 1. destruct (n =? 0)%float; simpl; [ reflexivity | apply IH ].
Qed.

Lemma div_loop_nonzero (l : list float) (acc : float) :
  Forall (fun n => (n =? 0)%float = false) l ->
  for_each div_body l acc = Ok (fold_left PrimFloat.div l acc).
Proof.
  intros H. revert acc. induction H as [| n l Hn _ IH]; intros acc; simpl.
  - reflexivity.
  - unfold div_body at 1. rewrite Hn. simpl. apply IH.
Qed.

Lemma Exists_or_Forall_zero (l : list float) :
  Exists (fun n => (n =? 0)%float = true) l
  \/ Forall (fun n => (n =? 0)%float = false) l.
Proof.
  induction l as [| n l [IH | IH]].
  - right. constructor.
  - left. now apply Exists_cons_tl.
  - destruct (n =? 0)%float eqn:Hn.
    + left. now apply Exists_cons_hd.
    + right. now constructor.
Qed.

Lemma divide_unfold (L : list pyval) (nums : list float) :
  _as_list L = Ok nums ->
  divide L = for_each div_body (tl nums) (hd 0%float nums).
Proof.
  intros H. unfold divide. rewrite H. reflexivity.
Qed.

(** C1, as amended: on a list of valid numbers, [divide] fails with
    DivisionByZero exactly when an operand after the first is zero;
    otherwise it returns the left-to-right quotient, and the quotient of
    a single number is that number. *)
Theorem divide_fails_iff_zero_divisor (L : list pyval) (nums : list float)
  (Hvalid : _as_list L = Ok nums) :
  (fails_with (divide L) DivisionByZero
   <-> Exists (fun n => (n =? 0)%float = true) (tl nums))
  /\ (Forall (fun n => (n =? 0)%float = false) (tl nums) ->
      divide L = Ok (fold_left PrimFloat.div (tl nums) (hd 0%float nums)))
  /\ (forall a : float, nums = [a] -> divide L = Ok a).
Proof.
  rewrite (divide_unfold _ Hvalid).
  split; [| split ].
  - split.
    + intros [e [He Hk]].
      destruct (Exists_or_Forall_zero (tl nums)) as [Hz | Hnz]; [ exact Hz |].
      rewrite (div_loop_nonzero _ Hnz) in He. discriminate.
    + intros Hz. exists (ValueError "Division by zero").
      split; [ now apply div_loop_zero | reflexivity ].
  - intros Hnz. now apply div_loop_nonzero.
  - intros a ->. reflexivity.
Qed.

Lemma divide_fails_iff_zero_divisor_witness :
  _as_list [PyInt 8; PyStr "2"; PyFloat 0.5] = Ok [8; 2; 0.5]%float
  /\ (fails_with (divide [PyInt 8; PyStr "2"; PyFloat 0.5]) DivisionByZero
      <-> Exists (fun n => (n =? 0)%float = true) (tl [8; 2; 0.5]%float))
  /\ (Forall (fun n => (n =? 0)%float = false) (tl [8; 2; 0.5]%float) ->
      divide [PyInt 8; PyStr "2"; PyFloat 0.5]
      = Ok (fold_left PrimFloat.div (tl [8; 2; 0.5]%float) (hd 0%float [8; 2; 0.5]%float)))
  /\ (forall a : float, [8; 2; 0.5]%float = [a] ->
      divide [PyInt 8; PyStr "2"; PyFloat 0.5] = Ok a).
Proof.
  split; [ vm_compute; reflexivity |].
  apply divide_fails_iff_zero_divisor. vm_compute; reflexivity.
Defined.

(** On a list that is not of valid numbers a zero after the first
    element does not decide the failure: the whole list is normalised
    before the first division, so [divide([1, 0, "abc"])] fails with
    InvalidNumber and not with DivisionByZero. *)
Lemma divide_zero_before_invalid_counterexample :
  [PyInt 1; PyInt 0; PyStr "abc"] <> []
  /\ _as_number (PyInt 0) = Ok 0%float
  /\ divide [PyInt 1; PyInt 0; PyStr "abc"]
     = Err (ValueError "could not convert string to float: 'abc'")
  /\ fails_with (divide [PyInt 1; PyInt 0; PyStr "abc"]) InvalidNumber
  /\ ~ fails_with (divide [PyInt 1; PyInt 0; PyStr "abc"]) DivisionByZero.
Proof.
  assert (H : divide [PyInt 1; PyInt 0; PyStr "abc"]
              = Err (ValueError "could not convert string to float: 'abc'"))
    by (vm_compute; reflexivity).
  split; [ discriminate |]. split; [ reflexivity |]. split; [ exact H |].
  split.
  - eexists. split; [ exact H | reflexivity ].
  - intros [e [He Hk]]. rewrite H in He. injection He as <-. discriminate.
Qed.

(** C8: [divide] and [divide_multiple] agree on every input, in their
    results and in their failures. *)
Theorem divide_multiple_is_divide (L : list pyval) :
  divide L = divide_multiple L.
Proof.
  unfold divide, divide_multiple.
  destruct (_as_list L) as [nums | e]; simpl; [| reflexivity ].
  generalize (hd 0%float nums). induction (tl nums) as [| n l IH]; intros acc; simpl.
  - reflexivity.
  - destruct (n =? 0)%float; simpl; [ reflexivity | apply IH ].
Qed.

(** ** Remainder *)

(** C2: a zero divisor reaches the runtime's [%] unguarded: [modulo]
    raises the interpreter's ZeroDivisionError, which is none of the
    named error kinds. *)
Theorem modulo_zero_divisor_unguarded :
  (forall a : pyval,
     modulo a (PyInt 0)
     = (x <- _as_number a ;; Err (ZeroDivisionError "float modulo")))
  /\ modulo (PyInt 5) (PyInt 0) = Err (ZeroDivisionError "float modulo")
  /\ fails_unnamed (modulo (PyInt 5) (PyInt 0))
  /\ fails_with (divide [PyInt 5; PyInt 0]) DivisionByZero.
Proof.
  split; [| split; [| split ]].
  - intros a. unfold modulo. destruct (_as_number a) as [x | e]; reflexivity.
  - vm_compute; reflexivity.
  - eexists. split; vm_compute; reflexivity.
  - eexists. split; vm_compute; reflexivity.
Qed.

(** ** Integers *)

Lemma pow_pos_Zpos (k : positive) : Zpos (2 ^ k) = 2 ^ Zpos k.
Proof. now rewrite Pos2Z.inj_pow. Qed.

Lemma integral_is_integer (f : float) (z : Z) :
  integral f z -> Py.is_integer f = true /\ Py.int_of_float f = Ok z.
Proof.
  unfold integral, F.to_Q, Py.is_integer, Py.int_of_float.
  intros [q [Hq Heq]].
  destruct (Prim2SF f) as [s | s | | s m e]; try discriminate.
  - injection Hq as <-. unfold Qeq in Heq; simpl in Heq.
    split; [ reflexivity | f_equal; lia ].
  - injection Hq as <-.
    destruct e as [| k | k]; unfold Qeq in Heq; simpl Qnum in Heq; simpl Qden in Heq.
    + split; [ reflexivity |]. f_equal. destruct s; simpl in *; lia.
    + split; [ reflexivity |]. f_equal.
      rewrite !Z.mul_1_r in Heq. destruct s; lia.
    + rewrite pow_pos_Zpos in Heq. rewrite Z.mul_1_r in Heq.
      assert (Hp : 0 < 2 ^ Zpos k) by (apply Z.pow_pos_nonneg; lia).
      destruct s.
      * assert (Hm : Zpos m = (- z) * 2 ^ Zpos k) by lia.
        rewrite Hm. rewrite Z.mod_mul, Z.div_mul by lia.
        split; [ reflexivity | f_equal; lia ].
      * rewrite Heq. rewrite Z.mod_mul, Z.div_mul by lia.
        split; reflexivity.
Qed.

Lemma is_integer_integral (f : float) :
  Py.is_integer f = true -> exists z, Py.int_of_float f = Ok z /\ integral f z.
Proof.
  unfold integral, F.to_Q, Py.is_integer, Py.int_of_float.
  destruct (Prim2SF f) as [s | s | | s m e]; try discriminate.
  - intros _. exists 0. split; [ reflexivity |]. exists (0 # 1). split; reflexivity.
  - intros H.
    assert (Hneg : Z.neg m = - Z.pos m) by reflexivity.
    destruct e as [| k | k].
    + exists (if s then - (Z.pos m * 2 ^ 0) else Z.pos m * 2 ^ 0).
      split; [ reflexivity |]. eexists. split; [ reflexivity |].
      unfold Qeq; cbn [Qnum Qden inject_Z]. destruct s; rewrite ?Hneg; ring.
    + exists (if s then - (Z.pos m * 2 ^ Z.pos k) else Z.pos m * 2 ^ Z.pos k).
      split; [ reflexivity |]. eexists. split; [ reflexivity |].
      unfold Qeq; cbn [Qnum Qden inject_Z]. destruct s; rewrite ?Hneg; ring.
    + exists (if s then - (Z.pos m / 2 ^ Z.pos k) else Z.pos m / 2 ^ Z.pos k).
      split; [ reflexivity |]. eexists. split; [ reflexivity |].
      unfold Qeq; cbn [Qnum Qden inject_Z].
      rewrite pow_pos_Zpos. rewrite Z.mul_1_r.
      apply Z.eqb_eq in H.
      assert (Hp : 0 < 2 ^ Zpos k) by (apply Z.pow_pos_nonneg; lia).
      pose proof (Z.div_mod (Zpos m) (2 ^ Zpos k) ltac:(lia)) as Hd.
      rewrite H in Hd. destruct s; rewrite ?Hneg; lia.
Qed.

Lemma float_of_bool_ok (b : bool) :
  Py.float_of_int (Z.b2z b) = Ok (if b then 1%float else 0%float).
Proof. destruct b; vm_compute; reflexivity. Qed.

(** The failures of [_as_number] are InvalidNumber or, for an [int] beyond
    the float range, the runtime's overflow. *)
Lemma _as_number_error_kind (v : pyval) (e : exn) :
  _as_number v = Err e ->
  kind_of e = Some InvalidNumber
  \/ e = OverflowError "int too large to convert to float".
Proof.
  destruct v as [z | b | f | s |]; simpl.
  - unfold Py.float_of_int.
    destruct (binary_normalize prec emax z 0 false); try discriminate.
    intros H. injection H as <-. now right.
  - rewrite float_of_bool_ok. discriminate.
  - discriminate.
  - destruct (Str.to_float (Str.strip s)); [ discriminate |].
    intros H. injection H as <-. left. reflexivity.
  - intros H. injection H as <-. left. reflexivity.
Qed.

(** On an input [v], [_as_int] succeeds with [z] exactly when
    [_as_number] accepts [v] and the value is the integer [z]; it fails
    with NotAnInteger exactly when the accepted value is not an integer;
    a failure of [_as_number] is passed on. *)
Lemma _as_int_spec (v : pyval) :
  (forall z : Z,
     _as_int v = Ok z <-> exists f, _as_number v = Ok f /\ integral f z)
  /\ (fails_with (_as_int v) NotAnInteger
      <-> exists f, _as_number v = Ok f /\ ~ exists z, integral f z)
  /\ (forall e, _as_number v = Err e -> _as_int v = Err e).
Proof.
  unfold _as_int.
  destruct (_as_number v) as [f | e0] eqn:Hnum; simpl.
  - destruct (Py.is_integer f) eqn:Hint; simpl.
    + destruct (is_integer_integral _ Hint) as [z0 [Hz0 Hi0]].
      split; [| split ].
      * intros z. rewrite Hz0. split.
        -- intros H. injection H as <-. now exists f.
        -- intros [f' [Hf' Hi]]. injection Hf' as <-.
           destruct (integral_is_integer Hi) as [_ Hz]. congruence.
      * split.
        -- intros [e [He _]]. rewrite Hz0 in He. discriminate.
        -- intros [f' [Hf' Hn]]. injection Hf' as <-.
           exfalso. apply Hn. now exists z0.
      * discriminate.
    + split; [| split ].
      * intros z. split; [ discriminate |].
        intros [f' [Hf' Hi]]. injection Hf' as <-.
        destruct (integral_is_integer Hi) as [Ht _]. congruence.
      * split.
        -- intros _. exists f. split; [ reflexivity |].
           intros [z Hi]. destruct (integral_is_integer Hi) as [Ht _]. congruence.
        -- intros _. eexists. split; reflexivity.
      * discriminate.
  - split; [| split ].
    + intros z. split; [ discriminate |]. intros [f [Hf _]]. discriminate.
    + split.
      * intros [e [He Hk]]. injection He as <-.
        destruct (_as_number_error_kind _ Hnum) as [Hk' | ->];
          [ congruence | discriminate ].
      * intros [f [Hf _]]. discriminate.
    + intros e H. now injection H as ->.
Qed.

(** C5: [_as_int] succeeds exactly on the inputs [_as_number] accepts
    whose value has a zero fractional part, and then returns that value
    as an integer ([3.0] gives [3]); it fails with NotAnInteger exactly
    on the accepted inputs whose value is not an integer ([3.5] fails);
    the integer returned is the exact value, never a truncation. *)
Theorem _as_int_iff_integral :
  (forall (v : pyval) (z : Z),
     _as_int v = Ok z <-> exists f, _as_number v = Ok f /\ integral f z)
  /\ (forall v : pyval,
        fails_with (_as_int v) NotAnInteger
        <-> exists f, _as_number v = Ok f /\ ~ exists z, integral f z)
  /\ (forall (v : pyval) (e : exn), _as_number v = Err e -> _as_int v = Err e)
  /\ _as_int (PyFloat 3) = Ok 3
  /\ fails_with (_as_int (PyFloat 3.5)) NotAnInteger.
Proof.
  split; [ intros v; apply (_as_int_spec v) |].
  split; [ intros v; apply (_as_int_spec v) |].
  split; [ intros v; apply (_as_int_spec v) |].
  split; [ vm_compute; reflexivity |].
  eexists. split; vm_compute; reflexivity.
Qed.

(** ** The exceptions of the runtime are outside the named kinds *)

Lemma unnamed_Ok {A : Type} (a : A) : unnamed (Ok a).
Proof. intros e H. discriminate. Qed.

Lemma unnamed_Err {A : Type} (e : exn) : kind_of e = None -> unnamed (@Err A e).
Proof. intros H e' H'. now injection H' as <-. Qed.

Lemma unnamed_bind {A B : Type} (r : result A) (k : A -> result B) :
  unnamed r -> (forall a, unnamed (k a)) -> unnamed (bind r k).
Proof.
  intros Hr Hk e H. destruct r as [a | e0]; simpl in H.
  - exact (Hk a e H).
  - injection H as <-. now apply Hr.
Qed.

Lemma unnamed_for_each {A S : Type} (body : S -> A -> result S) (l : list A) (acc : S) :
  (forall s x, unnamed (body s x)) -> unnamed (for_each body l acc).
Proof.
  intros Hb. revert acc. induction l as [| x l IH]; intros acc; simpl.
  - apply unnamed_Ok.
  - apply unnamed_bind; [ apply Hb | intros a; apply IH ].
Qed.

Ltac unnamed_step :=
  match goal with
  | |- unnamed (Ok _) => apply unnamed_Ok
  | |- unnamed (Err _) => apply unnamed_Err; reflexivity
  | |- unnamed (bind _ _) => apply unnamed_bind; [| intros ? ]
  | |- unnamed (for_each _ _ _) => apply unnamed_for_each; intros ? ?
  | |- unnamed (if ?b then _ else _) => destruct b
  | |- unnamed (match ?x with _ => _ end) => destruct x
  | |- unnamed (let '(_, _) := ?x in _) => destruct x
  end.

Lemma unnamed_float_of_int (z : Z) : unnamed (Py.float_of_int z).
Proof. unfold Py.float_of_int. repeat unnamed_step. Qed.

Lemma unnamed_int_truediv (n d : Z) : unnamed (PyOps.int_truediv n d).
Proof. unfold PyOps.int_truediv. repeat unnamed_step. Qed.

Lemma unnamed_lt (x y : pyval) : unnamed (PyOps.lt x y).
Proof. unfold PyOps.lt. destruct x, y; simpl; repeat unnamed_step. Qed.

Lemma unnamed_add (x y : pyval) : unnamed (PyOps.add x y).
Proof.
  unfold PyOps.add.
  destruct x, y; simpl; repeat first [ apply unnamed_float_of_int | unnamed_step ].
Qed.

Lemma unnamed_halve (x : pyval) : unnamed (PyOps.halve x).
Proof.
  unfold PyOps.halve.
  destruct x; simpl; repeat first [ apply unnamed_int_truediv | unnamed_step ].
Qed.

Lemma unnamed_insert (x : pyval) (l : list pyval) : unnamed (PyOps.insert x l).
Proof.
  induction l as [| y l IH]; simpl.
  - apply unnamed_Ok.
  - apply unnamed_bind; [ apply unnamed_lt | intros b ].
    destruct b; [| apply unnamed_Ok ].
    apply unnamed_bind; [ exact IH | intros r; apply unnamed_Ok ].
Qed.

Lemma unnamed_sorted (l : list pyval) : unnamed (PyOps.sorted l).
Proof.
  unfold PyOps.sorted. induction l as [| x l IH]; simpl.
  - apply unnamed_Ok.
  - apply unnamed_bind; [ exact IH | intros s; apply unnamed_insert ].
Qed.

Lemma unnamed_exact_ratio (x : pyval) : unnamed (statistics._exact_ratio x).
Proof. unfold statistics._exact_ratio. destruct x; simpl; repeat unnamed_step. Qed.

Lemma unnamed_coerce (T S : PyOps.pytype) : unnamed (statistics._coerce T S).
Proof. unfold statistics._coerce. destruct T, S; simpl; repeat unnamed_step. Qed.

Lemma unnamed_div_count (v : statistics.ratio) (n : Z) : unnamed (statistics.div_count v n).
Proof.
  unfold statistics.div_count.
  repeat first [ apply unnamed_float_of_int | unnamed_step ].
Qed.

Lemma unnamed_convert (v : statistics.ratio) (T : PyOps.pytype) :
  unnamed (statistics._convert v T).
Proof.
  unfold statistics._convert.
  repeat first [ apply unnamed_int_truediv | unnamed_step ].
Qed.

Lemma unnamed_statistics_mean (data : list pyval) : unnamed (statistics.mean data).
Proof.
  unfold statistics.mean, statistics._sum, statistics._sum_step.
  repeat first [ apply unnamed_exact_ratio | apply unnamed_coerce
               | apply unnamed_div_count | apply unnamed_convert | unnamed_step ].
Qed.

Lemma unnamed_statistics_median (data : list pyval) : unnamed (statistics.median data).
Proof.
  unfold statistics.median.
  repeat first [ apply unnamed_sorted | apply unnamed_add | apply unnamed_halve
               | unnamed_step ].
Qed.

Lemma unnamed_ss (data : list pyval) : unnamed (statistics._ss data).
Proof.
  unfold statistics._ss, statistics._ss_step.
  repeat first [ apply unnamed_exact_ratio | apply unnamed_coerce | unnamed_step ].
Qed.

Lemma unnamed_statistics_variance (data : list pyval) :
  unnamed (statistics.variance data).
Proof.
  unfold statistics.variance.
  repeat first [ apply unnamed_ss | apply unnamed_div_count | apply unnamed_convert
               | unnamed_step ].
Qed.

Lemma unnamed_float_sqrt_of_frac (n m : Z) :
  unnamed (statistics._float_sqrt_of_frac n m).
Proof.
  unfold statistics._float_sqrt_of_frac.
  repeat first [ apply unnamed_int_truediv | unnamed_step ].
Qed.

Lemma unnamed_statistics_stdev (data : list pyval) : unnamed (statistics.stdev data).
Proof.
  unfold statistics.stdev.
  repeat first [ apply unnamed_ss | apply unnamed_div_count
               | apply unnamed_float_sqrt_of_frac | unnamed_step ].
Qed.

(** ** Statistics of a constant list *)

Lemma finite_number_exact_ratio (x : pyval) :
  finite_number x ->
  numeric_type (PyOps.type_of x)
  /\ exists q, statistics._exact_ratio x = Ok (statistics.Finite q).
Proof.
  destruct x as [z | b | f | s |]; simpl; intros H; try contradiction.
  - split; [ now left | now eexists ].
  - split; [ right; now left | now eexists ].
  - split; [ right; now right |].
    destruct (F.to_Q f) as [q |]; [ now exists q | contradiction ].
Qed.

Lemma coerce_numeric (T S : PyOps.pytype) :
  numeric_type T -> numeric_type S ->
  exists T', statistics._coerce T S = Ok T' /\ numeric_type T'.
Proof.
  unfold numeric_type.
  intros [-> | [-> | ->]] [-> | [-> | ->]]; simpl; eexists; split;
    try reflexivity; auto.
Qed.

(** The accumulator of [_ss] after [k] more copies of a number of exact
    value [q]. *)
Lemma ss_loop_repeat (x : pyval) (q : Q) (k : nat) (a : statistics.ss_acc) :
  numeric_type (PyOps.type_of x) ->
  statistics._exact_ratio x = Ok (statistics.Finite q) ->
  numeric_type (statistics.ss_T a) ->
  exists a',
    for_each statistics._ss_step (repeat x k) a = Ok a'
    /\ numeric_type (statistics.ss_T a')
    /\ statistics.ss_count a' = statistics.ss_count a + Z.of_nat k
    /\ Qeq (statistics.ss_sx a') (statistics.ss_sx a + inject_Z (Z.of_nat k) * q)
    /\ Qeq (statistics.ss_sxx a')
           (statistics.ss_sxx a + inject_Z (Z.of_nat k) * (q * q))
    /\ statistics.ss_special a' = statistics.ss_special a.
Proof.
  intros Hx Hq. revert a. induction k as [| k IH]; intros a Ha.
  - exists a. simpl. repeat split; auto; try lia; ring.
  - destruct (coerce_numeric Ha Hx) as [T' [HT' HnT']].
    simpl repeat. simpl for_each. unfold statistics._ss_step at 1.
    rewrite Hq. simpl bind. rewrite HT'. simpl bind.
    match goal with |- context [for_each _ _ ?b] => destruct (IH b HnT') as
        [a' [Hrun [HT [Hc [Hsx [Hsxx Hsp]]]]]] end.
    exists a'. split; [ exact Hrun |].
    cbn [statistics.ss_T statistics.ss_count statistics.ss_sx statistics.ss_sxx
         statistics.ss_special] in *.
    split; [ exact HT |]. split; [ lia |].
    rewrite Hsx, Hsxx. rewrite Nat2Z.inj_succ. unfold Z.succ. rewrite inject_Z_plus.
    repeat split; try ring. exact Hsp.
Qed.

Lemma Qred_zero (q : Q) : Qeq q 0 -> Qred q = 0%Q.
Proof. intros H. now rewrite (Qred_complete _ _ H). Qed.

(** The standard deviation of [n >= 2] copies of a finite number is [0.0]. *)
Lemma stdev_constant (x : pyval) (n : nat) :
  finite_number x -> (2 <= n)%nat -> stdev (repeat x n) = Ok (PyFloat 0).
Proof.
  intros Hfin Hn.
  destruct (finite_number_exact_ratio _ Hfin) as [Hty [q Hq]].
  unfold stdev. rewrite repeat_length.
  destruct (n <? 2)%nat eqn:E; [ apply Nat.ltb_lt in E; lia |].
  unfold statistics.stdev, statistics._ss.
  match goal with |- context [for_each _ _ ?b] =>
    destruct (@ss_loop_repeat x q n b Hty Hq (or_introl eq_refl))
      as [a' [Hrun [HT [Hc [Hsx [Hsxx Hsp]]]]]] end.
  rewrite Hrun. cbn [bind].
  cbn [statistics.ss_T statistics.ss_count statistics.ss_sx statistics.ss_sxx
       statistics.ss_special] in *. rewrite Z.add_0_l in Hc.
  rewrite Hc, Hsp.
  destruct (Z.of_nat n =? 0) eqn:E0; [ apply Z.eqb_eq in E0; lia |].
  cbn [bind].
  destruct (Z.of_nat n <? 2) eqn:E2; [ apply Z.ltb_lt in E2; lia |].
  cbn [bind].
  unfold statistics.div_count; cbn [bind].
  rewrite Qred_zero; [ vm_compute; reflexivity |].
  rewrite Hsx, Hsxx. unfold Qdiv.
  setoid_replace (inject_Z (Z.of_nat n) * (0 + inject_Z (Z.of_nat n) * (q * q))
                  - (0 + inject_Z (Z.of_nat n) * q) * (0 + inject_Z (Z.of_nat n) * q))%Q
    with 0%Q by ring.
  ring.
Qed.

(** ** The guards of the statistics tools *)

Lemma unnamed_not_fails {A : Type} (r : result A) (k : error_kind) :
  unnamed r -> ~ fails_with r k.
Proof. intros Hu [e [He Hk]]. rewrite (Hu e He) in Hk. discriminate. Qed.

(** C6, as amended: [stdev] and [variance] fail with InsufficientData
    exactly on lists of fewer than two elements, [mean] and [median] fail
    with EmptyInput exactly on the empty list, and the standard deviation
    of a constant list of at least two finite numbers is [0.0]. *)
Theorem statistics_guards :
  (forall L, fails_with (stdev L) InsufficientData <-> (List.length L < 2)%nat)
  /\ (forall L, fails_with (variance L) InsufficientData <-> (List.length L < 2)%nat)
  /\ (forall L, fails_with (mean L) EmptyInput <-> L = [])
  /\ (forall L, fails_with (median L) EmptyInput <-> L = [])
  /\ (forall (x : pyval) (n : nat),
        finite_number x -> (2 <= n)%nat -> stdev (repeat x n) = Ok (PyFloat 0)).
Proof.
  split; [| split; [| split; [| split ]]].
  - intros L. unfold stdev. destruct (List.length L <? 2)%nat eqn:E.
    + apply Nat.ltb_lt in E. split; [ intros _; exact E |].
      intros _. eexists. split; reflexivity.
    + apply Nat.ltb_ge in E. split; [| lia ].
      intros H. exfalso. revert H. apply unnamed_not_fails, unnamed_statistics_stdev.
  - intros L. unfold variance. destruct (List.length L <? 2)%nat eqn:E.
    + apply Nat.ltb_lt in E. split; [ intros _; exact E |].
      intros _. eexists. split; reflexivity.
    + apply Nat.ltb_ge in E. split; [| lia ].
      intros H. exfalso. revert H. apply unnamed_not_fails, unnamed_statistics_variance.
  - intros [| x L]; unfold mean.
    + split; [ reflexivity |]. intros _. eexists. split; reflexivity.
    + split; [| discriminate ].
      intros H. exfalso. revert H. apply unnamed_not_fails, unnamed_statistics_mean.
  - intros [| x L]; unfold median.
    + split; [ reflexivity |]. intros _. eexists. split; reflexivity.
    + split; [| discriminate ].
      intros H. exfalso. revert H. apply unnamed_not_fails, unnamed_statistics_median.
  - apply stdev_constant.
Qed.

Lemma statistics_guards_witness :
  stdev (repeat (PyFloat 0.1) 3) = Ok (PyFloat 0)
  /\ fails_with (stdev [PyInt 7]) InsufficientData
  /\ fails_with (mean []) EmptyInput.
Proof.
  pose proof statistics_guards as [Hs [_ [Hm [_ Hc]]]].
  split; [| split ].
  - apply Hc; [ vm_compute; discriminate | apply le_S, le_n ].
  - apply Hs. apply le_n.
  - apply Hm. reflexivity.
Defined.

(** Two equal infinities: the statistics routine sums them apart from
    the rationals, as a float, and then asks that float for a numerator;
    no standard deviation comes back. *)
Lemma stdev_constant_infinity_counterexample :
  repeat (PyFloat infinity) 2 = [PyFloat infinity; PyFloat infinity]
  /\ stdev [PyFloat infinity; PyFloat infinity]
     = Err (AttributeError "'float' object has no attribute 'numerator'")
  /\ stdev [PyFloat infinity; PyFloat infinity] <> Ok (PyFloat 0).
Proof.
  split; [ reflexivity |]. split; [ vm_compute; reflexivity |].
  intros H. vm_compute in H. discriminate.
Qed.

(** ** Normalisation *)

Lemma list_comp_PyFloat (nums : list float) :
  list_comp _as_number (map PyFloat nums) = Ok nums.
Proof.
  induction nums as [| f nums IH]; simpl; [ reflexivity |].
  now rewrite IH.
Qed.

Lemma _as_list_normalised (L : list pyval) (nums : list float) :
  _as_list L = Ok nums -> _as_list (map PyFloat nums) = Ok nums.
Proof.
  intros H. destruct (@_as_list_nonempty _ _ H) as [_ [Hne _]].
  destruct nums as [| f nums]; [ contradiction |].
  unfold _as_list. cbn [map]. apply (list_comp_PyFloat (f :: nums)).
Qed.

(** A loop stops with an exception of the body when the body raises on
    some element whatever the accumulator. *)
Lemma for_each_raises {A S : Type} (body : S -> A -> result S) (P : A -> Prop)
  (Q : exn -> Prop) (l : list A) (acc : S) :
  (forall s x e, body s x = Err e -> Q e) ->
  (forall s x, P x -> exists e, body s x = Err e) ->
  Exists P l -> exists e, for_each body l acc = Err e /\ Q e.
Proof.
  intros HQ Hb H. revert acc. induction H as [x l Hx | x l _ IH]; intros acc; simpl.
  - destruct (Hb acc x Hx) as [e He]. rewrite He. exists e. split; [ reflexivity |].
    exact (HQ _ _ _ He).
  - destruct (body acc x) as [acc' | e] eqn:He; simpl; [ apply IH |].
    exists e. split; [ reflexivity |]. exact (HQ _ _ _ He).
Qed.

Lemma exact_ratio_TypeError (x : pyval) (e : exn) :
  statistics._exact_ratio x = Err e -> is_TypeError e.
Proof.
  destruct x as [z | b | f | s |]; simpl; try discriminate.
  - destruct (F.to_Q f); discriminate.
  - intros H. injection H as <-. now eexists.
  - intros H. injection H as <-. now eexists.
Qed.

Lemma coerce_TypeError (T S : PyOps.pytype) (e : exn) :
  statistics._coerce T S = Err e -> is_TypeError e.
Proof.
  destruct T, S; simpl; try discriminate; intros H; injection H as <-; now eexists.
Qed.

Lemma sum_step_TypeError (a : statistics.sum_acc) (x : pyval) (e : exn) :
  statistics._sum_step a x = Err e -> is_TypeError e.
Proof.
  unfold statistics._sum_step.
  destruct (statistics._exact_ratio x) as [r | e0] eqn:Hr; cbn [bind].
  - destruct (statistics._coerce (statistics.sum_T a) (PyOps.type_of x))
      as [T | e1] eqn:Hc; cbn [bind].
    + destruct r; discriminate.
    + intros H. injection H as <-. exact (coerce_TypeError _ _ Hc).
  - intros H. injection H as <-. exact (exact_ratio_TypeError _ Hr).
Qed.

Lemma ss_step_TypeError (a : statistics.ss_acc) (x : pyval) (e : exn) :
  statistics._ss_step a x = Err e -> is_TypeError e.
Proof.
  unfold statistics._ss_step.
  destruct (statistics._exact_ratio x) as [r | e0] eqn:Hr; cbn [bind].
  - destruct (statistics._coerce (statistics.ss_T a) (PyOps.type_of x))
      as [T | e1] eqn:Hc; cbn [bind].
    + destruct r; discriminate.
    + intros H. injection H as <-. exact (coerce_TypeError _ _ Hc).
  - intros H. injection H as <-. exact (exact_ratio_TypeError _ Hr).
Qed.

Lemma sum_step_str (a : statistics.sum_acc) (x : pyval) :
  is_str x -> exists e, statistics._sum_step a x = Err e.
Proof. destruct x; simpl; try contradiction. intros _. now eexists. Qed.

Lemma ss_step_str (a : statistics.ss_acc) (x : pyval) :
  is_str x -> exists e, statistics._ss_step a x = Err e.
Proof. destruct x; simpl; try contradiction. intros _. now eexists. Qed.

Lemma unnamed_TypeError {A : Type} (r : result A) (e : exn) :
  unnamed r -> r = Err e -> is_TypeError e -> raises_TypeError r.
Proof.
  intros Hu He [msg ->]. exists msg. split; [ exact He | now apply Hu ].
Qed.

Lemma mean_str (L : list pyval) : Exists is_str L -> raises_TypeError (mean L).
Proof.
  intros H.
  assert (Hm : mean L = statistics.mean L) by (destruct L; [ inversion H | reflexivity ]).
  rewrite Hm.
  unfold statistics.mean, statistics._sum.
  match goal with |- context [for_each _ _ ?b] =>
    destruct (@for_each_raises _ _ statistics._sum_step is_str is_TypeError _ b
                sum_step_TypeError sum_step_str H) as [e [He Hty]] end.
  apply unnamed_TypeError with e; [ apply unnamed_statistics_mean | | exact Hty ].
  unfold statistics.mean, statistics._sum. now rewrite He.
Qed.

Lemma ss_str (L : list pyval) :
  Exists is_str L -> exists e, statistics._ss L = Err e /\ is_TypeError e.
Proof.
  intros H. unfold statistics._ss.
  match goal with |- context [for_each _ _ ?b] =>
    destruct (@for_each_raises _ _ statistics._ss_step is_str is_TypeError _ b
                ss_step_TypeError ss_step_str H) as [e [He Hty]] end.
  exists e. now rewrite He.
Qed.

Lemma stdev_variance_str (L : list pyval) :
  (2 <= List.length L)%nat -> Exists is_str L ->
  raises_TypeError (stdev L) /\ raises_TypeError (variance L).
Proof.
  intros Hlen H. destruct (@ss_str _ H) as [e [He Hty]].
  unfold stdev, variance.
  destruct (List.length L <? 2)%nat eqn:E; [ apply Nat.ltb_lt in E; lia |].
  split.
  - apply unnamed_TypeError with e; [ apply unnamed_statistics_stdev | | exact Hty ].
    unfold statistics.stdev. now rewrite He.
  - apply unnamed_TypeError with e; [ apply unnamed_statistics_variance | | exact Hty ].
    unfold statistics.variance. now rewrite He.
Qed.

Lemma insert_strings (x : pyval) (l : list pyval) :
  is_str x -> Forall is_str l ->
  exists l', PyOps.insert x l = Ok l' /\ Forall is_str l'
             /\ List.length l' = S (List.length l).
Proof.
  intros Hx Hl. induction Hl as [| y l Hy Hl IH]; simpl.
  - exists [x]. repeat split. now constructor.
  - destruct x as [| | | s |]; try contradiction.
    destruct y as [| | | t |]; try contradiction.
    simpl.
    destruct (PyOps.ascii_list_ltb (list_ascii_of_string t) (list_ascii_of_string s)).
    + destruct IH as [l' [Hi [Hf Hn]]]. rewrite Hi. simpl.
      exists (PyStr t :: l'). repeat split; [ now constructor | simpl; now rewrite Hn ].
    + exists (PyStr s :: PyStr t :: l). repeat split. now repeat constructor.
Qed.

Lemma sorted_strings (L : list pyval) :
  Forall is_str L ->
  exists L', PyOps.sorted L = Ok L' /\ Forall is_str L'
             /\ List.length L' = List.length L.
Proof.
  unfold PyOps.sorted. intros H. induction H as [| x l Hx Hl IH]; simpl.
  - exists []. repeat split. constructor.
  - destruct IH as [s [Hs [Hf Hn]]]. rewrite Hs. simpl.
    destruct (@insert_strings _ _ Hx Hf) as [l' [Hi [Hf' Hn']]].
    exists l'. repeat split; [ exact Hi | exact Hf' | lia ].
Qed.

Lemma nth_str (l : list pyval) (i : nat) :
  Forall is_str l -> (i < List.length l)%nat -> exists s, nth i l PyNone = PyStr s.
Proof.
  intros H. revert i. induction H as [| x l Hx _ IH]; intros i Hi; simpl in Hi.
  - lia.
  - destruct i as [| i]; simpl.
    + destruct x; try contradiction. now eexists.
    + apply IH. lia.
Qed.

(** On strings [median] hands back a string or fails in the runtime. *)
Lemma median_strings (L : list pyval) :
  L <> [] -> Forall is_str L ->
  (exists s, median L = Ok (PyStr s)) \/ raises_TypeError (median L).
Proof.
  intros Hne H.
  assert (Hm : median L = statistics.median L) by (destruct L; [ contradiction | reflexivity ]).
  rewrite Hm. unfold statistics.median.
  destruct (@sorted_strings _ H) as [L' [Hs [Hf Hn]]]. rewrite Hs. cbn [bind].
  assert (Hpos : (0 < List.length L')%nat).
  { rewrite Hn. destruct L; [ contradiction | simpl; lia ]. }
  destruct (List.length L' =? 0)%nat eqn:E0; [ apply Nat.eqb_eq in E0; lia |].
  destruct (List.length L' mod 2 =? 1)%nat eqn:E1.
  - left. destruct (@nth_str L' (List.length L' / 2)%nat Hf) as [s ->];
      [ apply Nat.div_lt; lia | now exists s ].
  - right.
    assert (Hi : (List.length L' / 2 < List.length L')%nat) by (apply Nat.div_lt; lia).
    destruct (@nth_str _ (List.length L' / 2 - 1)%nat Hf ltac:(lia)) as [a ->].
    destruct (@nth_str _ _ Hf Hi) as [b ->].
    eexists. split; reflexivity.
Qed.

(** C3: the list tools outside the statistics group work on the
    normalised list; the statistics tools skip the normalisation: they
    receive the list as the caller sent it, and on strings they fail in
    the runtime or, for [median], hand a string back. *)
Theorem list_tools_normalise_statistics_pass_raw :
  (forall L nums, _as_list L = Ok nums ->
     add L = add (map PyFloat nums)
     /\ multiply L = multiply (map PyFloat nums)
     /\ subtract L = subtract (map PyFloat nums)
     /\ divide L = divide (map PyFloat nums)
     /\ divide_multiple L = divide_multiple (map PyFloat nums))
  /\ (forall p1 p2 n1 n2, _as_list p1 = Ok n1 -> _as_list p2 = Ok n2 ->
        manhattan_distance p1 p2
        = manhattan_distance (map PyFloat n1) (map PyFloat n2))
  /\ (forall L, Exists is_str L -> raises_TypeError (mean L))
  /\ (forall L, (2 <= List.length L)%nat -> Exists is_str L ->
        raises_TypeError (stdev L) /\ raises_TypeError (variance L))
  /\ (forall L, L <> [] -> Forall is_str L ->
        (exists s, median L = Ok (PyStr s)) \/ raises_TypeError (median L)).
Proof.
  split; [| split; [| split; [| split ]]].
  - intros L nums H. pose proof (_as_list_normalised _ H) as H'.
    unfold add, multiply, subtract, divide, divide_multiple.
    rewrite H, H'. repeat split.
  - intros p1 p2 n1 n2 H1 H2.
    pose proof (_as_list_normalised _ H1) as H1'.
    pose proof (_as_list_normalised _ H2) as H2'.
    unfold manhattan_distance. now rewrite H1, H2, H1', H2'.
  - apply mean_str.
  - apply stdev_variance_str.
  - apply median_strings.
Qed.

Lemma list_tools_normalise_statistics_pass_raw_witness :
  add [PyStr "1"; PyStr "2"] = add [PyFloat 1; PyFloat 2]
  /\ raises_TypeError (mean [PyStr "1"; PyStr "2"])
  /\ raises_TypeError (stdev [PyStr "1"; PyStr "2"]).
Proof.
  pose proof list_tools_normalise_statistics_pass_raw as [Hn [_ [Hm [Hs _]]]].
  split; [| split ].
  - apply (Hn [PyStr "1"; PyStr "2"] [1; 2]%float). vm_compute; reflexivity.
  - apply Hm. apply Exists_cons_hd. exact I.
  - apply Hs; [ apply le_n | apply Exists_cons_hd; exact I ].
Defined.

(** The mean of the strings ["1"] and ["2"] is not [1.5]: the call stops
    in the statistics routine with a TypeError, where [add] on the same
    list returns [3.0]. *)
Lemma mean_numeric_strings_counterexample :
  mean [PyStr "1"; PyStr "2"]
  = Err (TypeError "can't convert type 'str' to numerator/denominator")
  /\ mean [PyStr "1"; PyStr "2"] <> Ok (PyFloat 1.5)
  /\ add [PyStr "1"; PyStr "2"] = Ok 3%float.
Proof.
  split; [ vm_compute; reflexivity |]. split; [| vm_compute; reflexivity ].
  intros H. vm_compute in H. discriminate.
Qed.

(** ** Manhattan distance *)

Lemma fails_with_kind_unique {A : Type} (r : result A) (k k' : error_kind) :
  fails_with r k -> fails_with r k' -> k = k'.
Proof.
  intros [e [He Hk]] [e' [He' Hk']]. rewrite He in He'. injection He' as <-.
  congruence.
Qed.

(** C7, as amended: an empty list is refused with EmptyInput before the
    lengths are compared; on two lists of valid numbers the distance
    fails with DimensionMismatch when the lengths differ and is otherwise
    the left-to-right sum of the [|p1_i - p2_i|]. *)
Theorem manhattan_distance_spec (p1 p2 : list pyval) :
  (p1 = [] -> fails_with (manhattan_distance p1 p2) EmptyInput)
  /\ (forall n1, _as_list p1 = Ok n1 -> p2 = [] ->
        fails_with (manhattan_distance p1 p2) EmptyInput)
  /\ (forall n1 n2, _as_list p1 = Ok n1 -> _as_list p2 = Ok n2 ->
        (List.length p1 <> List.length p2 ->
         fails_with (manhattan_distance p1 p2) DimensionMismatch)
        /\ (List.length p1 = List.length p2 ->
            manhattan_distance p1 p2
            = Ok (fold_left PrimFloat.add (map abs_diff (combine n1 n2)) 0%float))).
Proof.
  unfold manhattan_distance. split; [| split ].
  - intros ->. eexists. split; reflexivity.
  - intros n1 H1 ->. rewrite H1. eexists. split; reflexivity.
  - intros n1 n2 H1 H2. rewrite H1, H2. cbn [bind].
    destruct (@_as_list_nonempty _ _ H1) as [_ [_ Hl1]].
    destruct (@_as_list_nonempty _ _ H2) as [_ [_ Hl2]].
    rewrite Hl1, Hl2.
    destruct (List.length p1 =? List.length p2)%nat eqn:E; cbn [negb].
    + apply Nat.eqb_eq in E. split; [ intros Hne; contradiction |].
      intros _. reflexivity.
    + apply Nat.eqb_neq in E. split; [| intros Heq; contradiction ].
      intros _. eexists. split; reflexivity.
Qed.

Lemma manhattan_distance_spec_witness :
  manhattan_distance [PyInt 1; PyInt 5] [PyInt 4; PyInt 1]
  = Ok (fold_left PrimFloat.add (map abs_diff (combine [1; 5] [4; 1]))%float 0%float)
  /\ fails_with (manhattan_distance [PyInt 1] [PyInt 4; PyInt 1]) DimensionMismatch
  /\ fails_with (manhattan_distance [] [PyInt 1]) EmptyInput.
Proof.
  split; [| split ].
  - apply (proj2 (proj2 (manhattan_distance_spec [PyInt 1; PyInt 5] [PyInt 4; PyInt 1]))
             [1; 5]%float [4; 1]%float);
      vm_compute; reflexivity.
  - apply (proj2 (proj2 (manhattan_distance_spec [PyInt 1] [PyInt 4; PyInt 1]))
             [1]%float [4; 1]%float);
      [ vm_compute; reflexivity | vm_compute; reflexivity | simpl; lia ].
  - apply (proj1 (manhattan_distance_spec [] [PyInt 1])). reflexivity.
Defined.

(** The lists [[]] and [[1.0]] differ in length, yet the failure is
    EmptyInput, not DimensionMismatch. *)
Lemma manhattan_distance_empty_counterexample :
  List.length (@nil pyval) <> List.length [PyFloat 1]
  /\ fails_with (manhattan_distance [] [PyFloat 1]) EmptyInput
  /\ ~ fails_with (manhattan_distance [] [PyFloat 1]) DimensionMismatch.
Proof.
  assert (H : fails_with (manhattan_distance [] [PyFloat 1]) EmptyInput)
    by (eexists; split; reflexivity).
  split; [ discriminate |]. split; [ exact H |].
  intros H'. pose proof (fails_with_kind_unique H H'). discriminate.
Qed.

(** ** Binary64 addition and multiplication *)

Lemma SFadd_comm (x y : spec_float) : SF64add x y = SF64add y x.
Proof.
  unfold SF64add, SFadd.
  destruct x as [sx | sx | | sx mx ex], y as [sy | sy | | sy my ey];
    try reflexivity; try (destruct sx, sy; reflexivity).
  rewrite (Z.min_comm ex ey). f_equal. apply Z.add_comm.
Qed.

Lemma SFmul_comm (x y : spec_float) : SF64mul x y = SF64mul y x.
Proof.
  unfold SF64mul, SFmul.
  destruct x as [sx | sx | | sx mx ex], y as [sy | sy | | sy my ey];
    try reflexivity; try (destruct sx, sy; reflexivity).
  rewrite (xorb_comm sx sy), (Pos.mul_comm mx my), (Z.add_comm ex ey). reflexivity.
Qed.

Lemma float_add_comm (x y : float) : (x + y = y + x)%float.
Proof. apply Prim2SF_inj. rewrite !add_spec. apply SFadd_comm. Qed.

Lemma float_mul_comm (x y : float) : (x * y = y * x)%float.
Proof. apply Prim2SF_inj. rewrite !mul_spec. apply SFmul_comm. Qed.

Lemma SFadd_zero_l (a : spec_float) : SF64add (S754_zero false) a = SFplus_zero a.
Proof. destruct a as [[|] | | |]; reflexivity. Qed.

Lemma float_sum2_comm (a b : float) : (0 + a + b = 0 + b + a)%float.
Proof.
  apply Prim2SF_inj. rewrite !add_spec.
  change (Prim2SF 0) with (S754_zero false). rewrite !SFadd_zero_l.
  destruct (Prim2SF a) as [sa | sa | | sa ma ea], (Prim2SF b) as [sb | sb | | sb mb eb];
    try reflexivity; try (destruct sa, sb; reflexivity); try (destruct sa; reflexivity);
    try (destruct sb; reflexivity).
  apply SFadd_comm.
Qed.

Lemma Prim2SF_one : Prim2SF 1 = S754_finite false 4503599627370496 (-52).
Proof. reflexivity. Qed.

Lemma digits2_pos_shift (m : positive) :
  Z.pos (digits2_pos (4503599627370496 * m)) = Z.pos (digits2_pos m) + 52.
Proof.
  change (4503599627370496 * m)%positive with
    (m~0~0~0~0~0~0~0~0~0~0~0~0~0~0~0~0~0~0~0~0~0~0~0~0~0~0~0~0~0~0~0~0~0~0~0~0~0~0~0~0~0~0~0~0~0~0~0~0~0~0~0~0)%positive.
  cbn [digits2_pos]. lia.
Qed.

Lemma shr_shift (m : positive) (e : Z) :
  shr (Build_shr_record (Z.pos (4503599627370496 * m)) false false) e 52
  = (Build_shr_record (Z.pos m) false false, e + 52).
Proof.
  change (4503599627370496 * m)%positive with
    (m~0~0~0~0~0~0~0~0~0~0~0~0~0~0~0~0~0~0~0~0~0~0~0~0~0~0~0~0~0~0~0~0~0~0~0~0~0~0~0~0~0~0~0~0~0~0~0~0~0~0~0~0)%positive.
  reflexivity.
Qed.

Lemma SFmul_one_l (a : spec_float) :
  valid_binary a = true -> SF64mul (S754_finite false 4503599627370496 (-52)) a = a.
Proof.
  destruct a as [s | s | | s m e]; try reflexivity.
  unfold SpecFloat.valid_binary, bounded, canonical_mantissa.
  intros H. apply andb_prop in H as [Hc Hb]. apply Z.eqb_eq in Hc.
  unfold SF64mul, SFmul. cbn [xorb].
  unfold binary_round_aux, shr_fexp.
  unfold Zdigits2. rewrite digits2_pos_shift.
  replace (Z.pos (digits2_pos m) + 52 + (-52 + e)) with (Z.pos (digits2_pos m) + e) by lia.
  rewrite Hc. replace (e - (-52 + e)) with 52 by lia.
  cbn [shr_record_of_loc]. rewrite shr_shift.
  cbn [shr_m loc_of_shr_record round_nearest_even].
  unfold Zdigits2. replace (-52 + e + 52) with e by lia.
  rewrite Hc. rewrite Z.sub_diag. cbn [shr shr_record_of_loc shr_m].
  now rewrite Hb.
Qed.

Lemma float_mul_one_l (a : float) : (1 * a = a)%float.
Proof.
  apply Prim2SF_inj. rewrite mul_spec, Prim2SF_one.
  apply SFmul_one_l, Prim2SF_valid.
Qed.

(** ** Sums and products *)

Lemma add_unfold (L : list pyval) (nums : list float) :
  _as_list L = Ok nums -> add L = Ok (fold_left PrimFloat.add nums 0%float).
Proof. intros H. unfold add. now rewrite H. Qed.

Lemma multiply_unfold (L : list pyval) (nums : list float) :
  _as_list L = Ok nums -> multiply L = Ok (fold_left PrimFloat.mul nums 1%float).
Proof. intros H. unfold multiply. rewrite H. cbn [bind]. apply for_each_pure. Qed.

Lemma _as_list_swap (a b : pyval) (nums : list float) :
  _as_list [a; b] = Ok nums ->
  exists x y, nums = [x; y] /\ _as_list [b; a] = Ok [y; x].
Proof.
  unfold _as_list. cbn [list_comp].
  destruct (_as_number a) as [x | e]; [| discriminate ].
  destruct (_as_number b) as [y | e]; [| discriminate ].
  cbn [bind]. intros H. injection H as <-. now exists x, y.
Qed.

(** C4, as amended: [add] is the left-to-right float sum from [0] and
    [multiply] the left-to-right float product from [1.0]; reordering a
    list of at most two valid numbers changes neither result. *)
Theorem add_multiply_left_to_right (L : list pyval) (nums : list float)
  (Hvalid : _as_list L = Ok nums) :
  add L = Ok (fold_left PrimFloat.add nums 0%float)
  /\ multiply L = Ok (fold_left PrimFloat.mul nums 1%float)
  /\ (forall L', Permutation L L' -> (List.length L <= 2)%nat ->
        add L' = add L /\ multiply L' = multiply L).
Proof.
  split; [ now apply add_unfold |]. split; [ now apply multiply_unfold |].
  intros L' Hperm Hlen.
  destruct L as [| a [| b [| c L]]]; simpl in Hlen; try lia.
  - discriminate.
  - apply Permutation_length_1_inv in Hperm. subst L'. now split.
  - apply Permutation_length_2_inv in Hperm as [-> | ->]; [ now split |].
    destruct (@_as_list_swap _ _ _ Hvalid) as [x [y [-> Hswap]]].
    rewrite (@add_unfold _ _ Hvalid), (@add_unfold _ _ Hswap).
    rewrite (@multiply_unfold _ _ Hvalid), (@multiply_unfold _ _ Hswap).
    cbn [fold_left]. split; f_equal.
    + apply float_sum2_comm.
    + rewrite !float_mul_one_l. apply float_mul_comm.
Qed.

Lemma add_multiply_left_to_right_witness :
  _as_list [PyInt 2; PyStr "0.5"] = Ok [2; 0.5]%float
  /\ add [PyInt 2; PyStr "0.5"] = Ok (fold_left PrimFloat.add [2; 0.5]%float 0%float)
  /\ multiply [PyInt 2; PyStr "0.5"] = Ok (fold_left PrimFloat.mul [2; 0.5]%float 1%float)
  /\ (forall L', Permutation [PyInt 2; PyStr "0.5"] L' ->
        (List.length [PyInt 2; PyStr "0.5"] <= 2)%nat ->
        add L' = add [PyInt 2; PyStr "0.5"]
        /\ multiply L' = multiply [PyInt 2; PyStr "0.5"]).
Proof.
  split; [ vm_compute; reflexivity |].
  apply add_multiply_left_to_right. vm_compute; reflexivity.
Defined.

(** Three valid numbers whose product, and whose sum, depends on the
    order: the running value overflows in one order only. *)
Lemma add_multiply_permutation_counterexample :
  Permutation [PyFloat 1e308; PyFloat 10; PyFloat 0.1]
              [PyFloat 1e308; PyFloat 0.1; PyFloat 10]
  /\ multiply [PyFloat 1e308; PyFloat 10; PyFloat 0.1] = Ok infinity
  /\ multiply [PyFloat 1e308; PyFloat 0.1; PyFloat 10] = Ok 1e308%float
  /\ multiply [PyFloat 1e308; PyFloat 10; PyFloat 0.1]
     <> multiply [PyFloat 1e308; PyFloat 0.1; PyFloat 10]
  /\ Permutation [PyFloat 1e308; PyFloat 1e308; PyFloat (-1e308)]
                 [PyFloat 1e308; PyFloat (-1e308); PyFloat 1e308]
  /\ add [PyFloat 1e308; PyFloat 1e308; PyFloat (-1e308)] = Ok infinity
  /\ add [PyFloat 1e308; PyFloat (-1e308); PyFloat 1e308] = Ok 1e308%float
  /\ add [PyFloat 1e308; PyFloat 1e308; PyFloat (-1e308)]
     <> add [PyFloat 1e308; PyFloat (-1e308); PyFloat 1e308].
Proof.
  assert (Hne : @Ok float infinity <> Ok 1e308%float).
  { intros H.
    apply (f_equal (fun r => match r with Ok f => is_infinity f | Err _ => false end)) in H.
    vm_compute in H. discriminate. }
  split; [ apply perm_skip, perm_swap |].
  split; [ vm_compute; reflexivity |].
  split; [ vm_compute; reflexivity |].
  split; [ intros H; vm_compute in H; exact (Hne H) |].
  split; [ apply perm_skip, perm_swap |].
  split; [ vm_compute; reflexivity |].
  split; [ vm_compute; reflexivity |].
  intros H. vm_compute in H. exact (Hne H).
Qed.

(** ** Booleans *)












(** ** Logarithms *)

(** [math.log(x, base)] on two finite positive floats whose logarithms
    the C library returns as finite floats, the second one not zero. *)
Lemma math_log_quotient (libm_log : float -> float) (x b : float) :
  is_nan x = false -> is_infinity x = false -> (0 <? x)%float = true ->
  is_nan b = false -> is_infinity b = false -> (0 <? b)%float = true ->
  is_nan (libm_log x) = false -> is_infinity (libm_log x) = false ->
  is_nan (libm_log b) = false -> is_infinity (libm_log b) = false ->
  (libm_log b =? 0)%float = false ->
  math.log libm_log x b = Ok (libm_log x / libm_log b)%float.
Proof.
  intros Hx1 Hx2 Hx3 Hb1 Hb2 Hb3 Hlx1 Hlx2 Hlb1 Hlb2 Hz.
  unfold math.log, math.m_log.
  rewrite Hx1, Hx2, Hx3, Hb1, Hb2, Hb3, Hlx1, Hlx2, Hlb1, Hlb2.
  cbn [andb negb orb bind]. now rewrite Hz.
Qed.

(** C9: without a base, [log] divides by the logarithm of the float
    [2.718281828], which lies below [math.e]; with the correctly rounded
    logarithms of [10] and of that base, [log(10)] exceeds [ln 10]. *)
Theorem log_default_base_is_not_e :
  log_default_base = PyFloat 0x1.5bf0a8b04919bp+1
  /\ (0x1.5bf0a8b04919bp+1 <? math.e)%float = true
  /\ (forall libm_log x,
        log libm_log x None = log libm_log x (Some (PyFloat 2.718281828)))
  /\ (forall libm_log : float -> float,
        libm_log 10%float = 0x1.26bb1bbb55516p+1%float ->
        libm_log 2.718281828%float = 0x1.fffffffe8ca4cp-1%float ->
        log libm_log (PyInt 10) None = Ok 0x1.26bb1bbc2b168p+1%float
        /\ (libm_log 10 <? 0x1.26bb1bbc2b168p+1)%float = true).
Proof.
  split; [ reflexivity |]. split; [ reflexivity |]. split; [ reflexivity |].
  intros libm_log H10 Hb. split; [| now rewrite H10 ].
  unfold log, log_default_base.
  change (_as_number (PyInt 10)) with (Ok 10%float).
  change (_as_number (PyFloat 2.718281828)) with (Ok 2.718281828%float).
  cbn [bind]. change (10 <=? 0)%float with false. cbv iota.
  rewrite math_log_quotient; rewrite ?H10, ?Hb; reflexivity.
Qed.

Lemma log_default_base_is_not_e_witness :
  log libm_log_sample (PyInt 10) None = Ok 0x1.26bb1bbc2b168p+1%float
  /\ (libm_log_sample 10 <? 0x1.26bb1bbc2b168p+1)%float = true.
Proof.
  apply (proj2 (proj2 (proj2 log_default_base_is_not_e)) libm_log_sample); reflexivity.
Defined.

(** * Further properties of the tools *)

(** ** The list normaliser *)

Lemma list_comp_Forall2 {A B : Type} (f : A -> result B) (l : list A) (r : list B) :
  list_comp f l = Ok r <-> Forall2 (fun x y => f x = Ok y) l r.
Proof.
  revert r. induction l as [| x l IH]; intros r; simpl.
  - split.
    + intros H. injection H as <-. constructor.
    + intros H. inversion H. reflexivity.
  - split.
    + destruct (f x) as [y | e] eqn:Hx; cbn [bind]; [| discriminate ].
      destruct (list_comp f l) as [ys | e] eqn:Hl; cbn [bind]; [| discriminate ].
      intros H. injection H as <-. constructor; [ exact Hx | now apply IH ].
    + intros H. inversion H as [| x' y l' ys Hx Hl]; subst.
      rewrite Hx. cbn [bind]. apply IH in Hl. rewrite Hl. reflexivity.
Qed.

(** The first element that the body refuses decides the exception of a
    comprehension. *)
Lemma list_comp_first_failure {A B : Type} (f : A -> result B)
  (pre : list A) (x : A) (post : list A) (ys : list B) (e : exn) :
  Forall2 (fun a b => f a = Ok b) pre ys -> f x = Err e ->
  list_comp f (pre ++ x :: post)%list = Err e.
Proof.
  intros Hpre Hx. induction Hpre as [| a b pre ys Ha _ IH]; simpl.
  - now rewrite Hx.
  - rewrite Ha. cbn [bind]. now rewrite IH.
Qed.

(** X1: [_as_list] accepts exactly the non-empty lists whose elements
    [_as_number] accepts, and returns their values in order; it refuses
    the empty list with EmptyInput and any other list with the exception
    of its first invalid element. *)
Theorem _as_list_characterised :
  (forall L nums,
     _as_list L = Ok nums
     <-> L <> [] /\ Forall2 (fun x f => _as_number x = Ok f) L nums)
  /\ (forall L, fails_with (_as_list L) EmptyInput <-> L = [])
  /\ (forall pre x post ys e,
        Forall2 (fun a f => _as_number a = Ok f) pre ys ->
        _as_number x = Err e ->
        _as_list (pre ++ x :: post)%list = Err e).
Proof.
  split; [| split ].
  - intros [| x L] nums.
    + split; [ discriminate | intros [H _]; contradiction ].
    + unfold _as_list. rewrite list_comp_Forall2.
      split; [ intros H; split; [ discriminate | exact H ] | intros [_ H]; exact H ].
  - intros [| x L].
    + split; [ reflexivity |]. intros _. eexists. split; reflexivity.
    + split; [| discriminate ].
      intros [e [He Hk]]. exfalso. unfold _as_list in He.
      assert (Hin : exists pre y post ys,
                 x :: L = (pre ++ y :: post)%list
                 /\ Forall2 (fun a f => _as_number a = Ok f) pre ys
                 /\ _as_number y = Err e).
      { clear Hk. revert He. generalize (x :: L). intros l.
        induction l as [| a l IH]; simpl; [ discriminate |].
        destruct (_as_number a) as [fa | ea] eqn:Ha; cbn [bind].
        - destruct (list_comp _as_number l) as [ys | e'] eqn:Hl; cbn [bind];
            [ discriminate |].
          intros H. injection H as ->.
          destruct (IH eq_refl) as [pre [y [post [ys [-> [Hpre Hy]]]]]].
          exists (a :: pre), y, post, (fa :: ys). repeat split; auto.
        - intros H. injection H as ->.
          exists [], a, l, []. repeat split; auto. }
      destruct Hin as [pre [y [post [ys [_ [_ Hy]]]]]].
      destruct (_as_number_error_kind _ Hy) as [Hk' | ->];
        [ congruence | discriminate ].
  - intros pre x post ys e Hpre Hx.
    destruct (pre ++ x :: post)%list as [| a l] eqn:E.
    + destruct pre; discriminate.
    + unfold _as_list. rewrite <- E. now apply list_comp_first_failure with ys.
Qed.

Lemma _as_list_characterised_witness :
  _as_list [PyInt 1; PyNone; PyStr "x"] = Err (TypeError "Invalid number: None").
Proof.
  apply (proj2 (proj2 _as_list_characterised) [PyInt 1] PyNone [PyStr "x"] [1%float]).
  - repeat constructor.
  - reflexivity.
Defined.

(** ** White space around a numeric string *)

Lemma list_ascii_of_string_app (a b : string) :
  list_ascii_of_string (a ++ b) = (list_ascii_of_string a ++ list_ascii_of_string b)%list.
Proof. induction a as [| c a IH]; simpl; [ reflexivity | now rewrite IH ]. Qed.

Lemma lstrip_spaces (ws l : list ascii) :
  Forall (fun c => Str.is_space c = true) ws ->
  Str.lstrip (ws ++ l)%list = Str.lstrip l.
Proof.
  intros H. induction H as [| c ws Hc _ IH]; simpl; [ reflexivity |].
  now rewrite Hc.
Qed.

Lemma rstrip_spaces (l ws : list ascii) :
  Forall (fun c => Str.is_space c = true) ws ->
  Str.lstrip (rev (Str.lstrip (l ++ ws)%list)) = Str.lstrip (rev (Str.lstrip l)).
Proof.
  intros H. induction l as [| c l IH]; simpl.
  - rewrite <- (app_nil_r ws). rewrite (lstrip_spaces [] H). reflexivity.
  - destruct (Str.is_space c) eqn:Hc; [ exact IH |].
    change (c :: (l ++ ws)%list) with ((c :: l) ++ ws)%list.
    rewrite rev_app_distr. apply lstrip_spaces. now apply Forall_rev.
Qed.

Lemma strip_spaces (w s w' : string) :
  all_space w -> all_space w' -> Str.strip (w ++ s ++ w') = Str.strip s.
Proof.
  unfold all_space, Str.strip. intros Hw Hw'.
  rewrite !list_ascii_of_string_app. rewrite (lstrip_spaces _ Hw).
  now rewrite (rstrip_spaces _ Hw').
Qed.

(** X2: white space before and after a string changes nothing of what
    [_as_number], [_as_int] and [_as_list] return on it, value or
    exception: the string is stripped before [float] sees it. *)
Theorem _as_number_ignores_surrounding_space (w s w' : string)
  (Hw : all_space w) (Hw' : all_space w') :
  _as_number (PyStr (w ++ s ++ w')) = _as_number (PyStr s)
  /\ _as_int (PyStr (w ++ s ++ w')) = _as_int (PyStr s)
  /\ forall L, _as_list (PyStr (w ++ s ++ w') :: L) = _as_list (PyStr s :: L).
Proof.
  assert (H : _as_number (PyStr (w ++ s ++ w')) = _as_number (PyStr s)).
  { unfold _as_number. now rewrite strip_spaces. }
  split; [ exact H |]. split.
  - unfold _as_int. now rewrite H.
  - intros L. unfold _as_list. cbn [list_comp]. now rewrite H.
Qed.

Lemma _as_number_ignores_surrounding_space_witness :
  _as_number (PyStr ("  " ++ "2.5" ++ " ")) = _as_number (PyStr "2.5")
  /\ _as_int (PyStr ("  " ++ "2.5" ++ " ")) = _as_int (PyStr "2.5")
  /\ forall L, _as_list (PyStr ("  " ++ "2.5" ++ " ") :: L) = _as_list (PyStr "2.5" :: L).
Proof.
  apply _as_number_ignores_surrounding_space; repeat constructor.
Defined.

(** ** Integers that a float holds exactly *)

Lemma digits2_pos_size (p : positive) : digits2_pos p = Pos.size p.
Proof. induction p as [p IH | p IH |]; simpl; now rewrite ?IH. Qed.

Lemma digits2_pos_bound (p : positive) (n : Z) :
  0 <= n -> Zpos p < 2 ^ n -> Zpos (digits2_pos p) <= n.
Proof.
  intros Hn Hp. rewrite digits2_pos_size.
  destruct (Z_le_gt_dec (Zpos (Pos.size p)) n) as [H | H]; [ exact H | exfalso ].
  pose proof (Pos.size_le p) as Hs.
  apply Pos2Z.pos_le_pos in Hs. rewrite Pos2Z.inj_pow in Hs.
  change (Z.pos p~0) with (2 * Z.pos p) in Hs.
  assert (Hm : 2 ^ (n + 1) <= 2 ^ Zpos (Pos.size p)) by (apply Z.pow_le_mono_r; lia).
  rewrite Z.pow_add_r in Hm by lia. change (2 ^ 1) with 2 in Hm.
 lia.
Qed.

Lemma digits2_pos_iter_xO (p k : positive) :
  Zpos (digits2_pos (Pos.iter xO p k)) = Zpos (digits2_pos p) + Zpos k.
Proof.
  induction k as [| k IH] using Pos.peano_ind.
  - simpl. lia.
  - rewrite Pos.iter_succ. simpl digits2_pos. lia.
Qed.

Lemma Zpos_iter_xO (p k : positive) :
  Zpos (Pos.iter xO p k) = Zpos p * 2 ^ Zpos k.
Proof.
  induction k as [| k IH] using Pos.peano_ind.
  - simpl. lia.
  - rewrite Pos.iter_succ. rewrite Pos2Z.inj_xO, IH.
    rewrite Pos2Z.inj_succ, Z.pow_succ_r by lia. ring.
Qed.

(** A mantissa that already sits at its canonical exponent is not
    rounded. *)
Lemma binary_round_aux_canonical (s : bool) (m : positive) (e : Z) :
  fexp prec emax (Zdigits2 (Zpos m) + e) = e -> e <= emax - prec ->
  binary_round_aux prec emax s (Zpos m) e loc_Exact = S754_finite s m e.
Proof.
  intros Hc Hb. unfold binary_round_aux, shr_fexp.
  rewrite Hc, Z.sub_diag.
  cbn [shr shr_record_of_loc shr_m loc_of_shr_record round_nearest_even].
  rewrite Hc, Z.sub_diag.
  cbn [shr shr_record_of_loc shr_m].
  apply Z.leb_le in Hb. now rewrite Hb.
Qed.

(** The float of a non-zero integer of at most 53 bits: the integer
    itself, shifted to 53 bits. *)
Lemma binary_round_small (s : bool) (p : positive) :
  Zpos (digits2_pos p) <= 53 ->
  exists m e,
    binary_round prec emax s p 0 = S754_finite s m e
    /\ valid_binary (S754_finite s m e) = true
    /\ e <= 0 /\ Zpos m = Zpos p * 2 ^ (- e).
Proof.
  intros Hd. unfold binary_round.
  assert (Hf : forall d, 1 <= d <= 53 -> fexp prec emax d = d - 53).
  { intros d H. unfold fexp, SpecFloat.emin, prec, emax. lia. }
  assert (H1 : 1 <= Zpos (digits2_pos p)) by lia.
  rewrite Z.add_0_r, Hf by lia.
  unfold shl_align.
  destruct (Z.pos (digits2_pos p) - 53 - 0) as [| k | k] eqn:E; try lia.
  - exists p, 0.
    assert (Hc : fexp prec emax (Zdigits2 (Zpos p) + 0) = 0).
    { unfold Zdigits2. rewrite Z.add_0_r, Hf by lia. lia. }
    split; [ apply binary_round_aux_canonical; [ exact Hc | unfold emax, prec; lia ] |].
    split; [| split; [ lia | simpl; lia ] ].
    unfold SpecFloat.valid_binary, bounded, canonical_mantissa.
    unfold Zdigits2 in Hc. rewrite Hc. reflexivity.
  - exists (Pos.iter xO p k), (Zpos (digits2_pos p) - 53).
    assert (Hk : Zpos k = 53 - Zpos (digits2_pos p)) by lia.
    assert (Hc : fexp prec emax (Zdigits2 (Zpos (Pos.iter xO p k))
                                 + (Zpos (digits2_pos p) - 53))
                 = Zpos (digits2_pos p) - 53).
    { unfold Zdigits2. rewrite digits2_pos_iter_xO, Hk.
      replace (Z.pos (digits2_pos p) + (53 - Z.pos (digits2_pos p))
               + (Z.pos (digits2_pos p) - 53)) with (Zpos (digits2_pos p)) by lia.
      apply Hf. lia. }
    split; [ apply binary_round_aux_canonical; [ exact Hc | unfold emax, prec; lia ] |].
    split; [| split; [ lia |] ].
    + unfold SpecFloat.valid_binary, bounded, canonical_mantissa.
      unfold Zdigits2 in Hc. rewrite Hc, Z.eqb_refl. cbn [andb].
      apply Z.leb_le. unfold emax, prec. lia.
    + rewrite Zpos_iter_xO, Hk. f_equal. f_equal. lia.
Qed.

Lemma small_int_float (s : bool) (p : positive) :
  Zpos p < 2 ^ 53 ->
  let z := if s then Zneg p else Zpos p in
  exists f, Py.float_of_int z = Ok f
            /\ Py.is_integer f = true /\ Py.int_of_float f = Ok z.
Proof.
  intros Hp z.
  destruct (@binary_round_small s p (@digits2_pos_bound p 53 ltac:(lia) Hp))
    as [m [e [Hr [Hv [He Hm]]]]].
  assert (Hn : binary_normalize prec emax z 0 false = S754_finite s m e).
  { unfold z. destruct s; exact Hr. }
  exists (SF2Prim (S754_finite s m e)).
  unfold Py.float_of_int. rewrite Hn.
  split; [ reflexivity |].
  unfold Py.is_integer, Py.int_of_float.
  rewrite (Prim2SF_SF2Prim _ Hv).
  destruct e as [| k | k]; try lia.
  - simpl in Hm. split; [ reflexivity |]. f_equal.
    assert (m = p) by lia. subst m. unfold z. destruct s; simpl; lia.
  - change (- Z.neg k) with (Zpos k) in Hm. rewrite Hm.
    assert (Hpow : 0 < 2 ^ Zpos k) by (apply Z.pow_pos_nonneg; lia).
    rewrite Z.mod_mul, Z.div_mul by lia.
    split; [ reflexivity |]. unfold z. destruct s; reflexivity.
Qed.

(** An [int] of magnitude at most [2 ^ 53] is a float: [_as_int]
    returns it unchanged. *)
Lemma _as_int_small (z : Z) : Z.abs z <= 2 ^ 53 -> _as_int (PyInt z) = Ok z.
Proof.
  intros Hz.
  destruct (Z.eq_dec (Z.abs z) (2 ^ 53)) as [Heq | Hne].
  - destruct z as [| p | p]; simpl in Heq; try discriminate.
    + injection Heq as ->. vm_compute; reflexivity.
    + injection Heq as ->. vm_compute; reflexivity.
  - destruct z as [| p | p].
    + vm_compute; reflexivity.
    + destruct (@small_int_float false p ltac:(simpl in *; lia)) as [f [Hf [Hi Hz']]].
      unfold _as_int, _as_number, Py.to_float. rewrite Hf. cbn [bind].
      rewrite Hi. exact Hz'.
    + destruct (@small_int_float true p ltac:(simpl in *; lia)) as [f [Hf [Hi Hz']]].
      unfold _as_int, _as_number, Py.to_float. rewrite Hf. cbn [bind].
      rewrite Hi. exact Hz'.
Qed.

(** X3: every integer of magnitude at most [2 ^ 53] passes [_as_int]
    unchanged, as an [int] or as the float of the same value; the bound
    is the last one: [2 ^ 53 + 1] comes back as [2 ^ 53]. *)
Theorem _as_int_exact_up_to_2_53 :
  (forall z : Z, Z.abs z <= 2 ^ 53 ->
     _as_int (PyInt z) = Ok z
     /\ exists f, _as_number (PyInt z) = Ok f /\ _as_int (PyFloat f) = Ok z)
  /\ _as_int (PyInt (2 ^ 53 + 1)) = Ok (2 ^ 53).
Proof.
  split; [| vm_compute; reflexivity ].
  intros z Hz. pose proof (_as_int_small z Hz) as H.
  split; [ exact H |].
  unfold _as_int in H.
  destruct (_as_number (PyInt z)) as [f | e] eqn:Hf; cbn [bind] in H; [| discriminate ].
  exists f. split; [ reflexivity |]. exact H.
Qed.

Lemma _as_int_exact_up_to_2_53_witness : _as_int (PyInt (-12345)) = Ok (-12345).
Proof.
  apply (proj1 (proj1 _as_int_exact_up_to_2_53 (-12345) ltac:(vm_compute; discriminate))).
Defined.

(** ** Lists of one number *)

Lemma _as_list_singleton (a : pyval) (f : float) :
  _as_number a = Ok f -> _as_list [a] = Ok [f].
Proof. intros H. unfold _as_list. cbn [list_comp]. now rewrite H. Qed.

Lemma float_zero_add (f : float) :
  (f = neg_zero -> (0 + f)%float = 0%float)
  /\ (f <> neg_zero -> (0 + f)%float = f).
Proof.
  split.
  - intros ->. reflexivity.
  - intros Hne. apply Prim2SF_inj. rewrite add_spec.
    change (Prim2SF 0) with (S754_zero false). rewrite SFadd_zero_l.
    destruct (Prim2SF f) as [[|] | | |] eqn:E; try reflexivity.
    exfalso. apply Hne. apply Prim2SF_inj. rewrite E. reflexivity.
Qed.

(** X4: on a list of one valid number [multiply] and [subtract] return that
    number; [add] returns it too, except that it turns [-0.0] into
    [0.0], the sum starting from [0]. *)
Theorem tools_on_one_number (a : pyval) (f : float) (Hvalid : _as_number a = Ok f) :
  multiply [a] = Ok f
  /\ subtract [a] = Ok f
  /\ (f = neg_zero -> add [a] = Ok 0%float)
  /\ (f <> neg_zero -> add [a] = Ok f).
Proof.
  pose proof (_as_list_singleton _ Hvalid) as Hl.
  unfold multiply, subtract, add. rewrite Hl. cbn [bind for_each hd tl Py.sum fold_left].
  split; [ now rewrite float_mul_one_l |]. split; [ reflexivity |].
  destruct (float_zero_add f) as [H0 H1].
  split; intros H; [ now rewrite (H0 H) | now rewrite (H1 H) ].
Qed.

Lemma tools_on_one_number_witness :
  multiply [PyStr "-0.0"] = Ok neg_zero
  /\ subtract [PyStr "-0.0"] = Ok neg_zero
  /\ (neg_zero = neg_zero -> add [PyStr "-0.0"] = Ok 0%float)
  /\ (neg_zero <> neg_zero -> add [PyStr "-0.0"] = Ok neg_zero).
Proof. apply tools_on_one_number. vm_compute; reflexivity. Defined.

(** ** Square root *)

Lemma SFcompare_refl (x : spec_float) :
  x <> S754_nan -> SFcompare x x = Some Eq.
Proof.
  destruct x as [s | s | | s m e]; intros H; try congruence; simpl.
  - reflexivity.
  - destruct s; reflexivity.
  - rewrite Z.compare_refl. change (Pos.compare_cont Eq m m) with (Pos.compare m m).
    rewrite Pos.compare_refl. destruct s; reflexivity.
Qed.

Lemma is_nan_Prim2SF (f : float) :
  is_nan f = true <-> Prim2SF f = S754_nan.
Proof.
  unfold is_nan. rewrite eqb_spec. unfold SFeqb. split.
  - intros H. destruct (Prim2SF f) as [s | s | | s m e] eqn:E; try reflexivity;
      rewrite SFcompare_refl in H by discriminate; discriminate.
  - intros ->. reflexivity.
Qed.

Lemma shr_1_nonneg (mrs : shr_record) :
  0 <= shr_m mrs -> 0 <= shr_m (shr_1 mrs).
Proof.
  destruct mrs as [m r s]. simpl.
  destruct m as [| [p | p |] | p]; simpl; lia.
Qed.

Lemma iter_shr_1_nonneg (p : positive) (mrs : shr_record) :
  0 <= shr_m mrs -> 0 <= shr_m (iter_pos shr_1 p mrs).
Proof.
  revert mrs. induction p as [p IH | p IH |]; intros mrs H; simpl.
  - apply IH, IH, shr_1_nonneg, H.
  - apply IH, IH, H.
  - apply shr_1_nonneg, H.
Qed.

Lemma shr_fexp_nonneg (m e : Z) (l : location) :
  0 <= m -> 0 <= shr_m (fst (shr_fexp prec emax m e l)).
Proof.
  intros H. unfold shr_fexp, shr.
  assert (H0 : 0 <= shr_m (shr_record_of_loc m l)).
  { destruct l as [| []]; exact H. }
  destruct (fexp prec emax (Zdigits2 m + e) - e); simpl;
    [ exact H0 | apply iter_shr_1_nonneg, H0 | exact H0 ].
Qed.

Lemma round_nearest_even_nonneg (m : Z) (l : location) :
  0 <= m -> 0 <= round_nearest_even m l.
Proof.
  intros H. unfold round_nearest_even.
  destruct l as [| []]; try destruct (Z.even m); lia.
Qed.

(** Rounding a non-negative mantissa never produces NaN. *)
Lemma binary_round_aux_not_nan (sx : bool) (m e : Z) (l : location) :
  0 <= m -> binary_round_aux prec emax sx m e l <> S754_nan.
Proof.
  intros H. unfold binary_round_aux.
  pose proof (@shr_fexp_nonneg m e l H) as H1.
  destruct (shr_fexp prec emax m e l) as [mrs' e']. simpl in H1.
  pose proof (@shr_fexp_nonneg _ e' loc_Exact
                (@round_nearest_even_nonneg _ (loc_of_shr_record mrs') H1)) as H2.
  destruct (shr_fexp prec emax _ e' loc_Exact) as [mrs'' e'']. simpl in H2.
  destruct (shr_m mrs'') as [| p | p]; [ discriminate | | lia ].
  destruct (e'' <=? emax - prec); discriminate.
Qed.

Lemma sqrtrem_nonneg (n : Z) : 0 <= fst (Z.sqrtrem n).
Proof. rewrite Z.sqrtrem_sqrt. apply Z.sqrt_nonneg. Qed.

(** The hardware square root of a number that is not below zero is NaN
    only if the number is. *)
Lemma sqrt_nan_only_of_nan (v : float) :
  (v <? 0)%float = false -> is_nan (PrimFloat.sqrt v) = true -> is_nan v = true.
Proof.
  rewrite ltb_spec. rewrite !is_nan_Prim2SF. rewrite sqrt_spec.
  change (Prim2SF 0) with (S754_zero false).
  destruct (Prim2SF v) as [s | s | | s m e]; intros Hlt Hs; try reflexivity.
  - discriminate.
  - destruct s; [ discriminate Hlt | discriminate Hs ].
  - destruct s; [ discriminate Hlt |].
    exfalso. unfold SF64sqrt, SFsqrt, SFsqrt_core_binary in Hs.
    cbv zeta in Hs.
    match type of Hs with context [Z.sqrtrem ?a] =>
      pose proof (sqrtrem_nonneg a) as Hq; destruct (Z.sqrtrem a) as [q r] end.
    simpl in Hq. revert Hs. apply binary_round_aux_not_nan. exact Hq.
Qed.

(** X5: [sqrt] fails with NegativeInput exactly when the value of its
    argument compares below zero, and every other valid argument gets
    the hardware square root: the library's own domain error is never
    reached, [-0.0], [inf] and NaN come back as they are. *)
Theorem sqrt_negative_guard :
  (forall x, fails_with (sqrt x) NegativeInput
             <-> exists v, _as_number x = Ok v /\ (v <? 0)%float = true)
  /\ (forall x v, _as_number x = Ok v -> (v <? 0)%float = false ->
        sqrt x = Ok (PrimFloat.sqrt v))
  /\ sqrt (PyStr "-0.0") = Ok neg_zero
  /\ sqrt (PyStr "inf") = Ok infinity
  /\ (forall x v, sqrt x = Ok v -> (v <? 0)%float = false).
Proof.
  assert (Hok : forall x v, _as_number x = Ok v -> (v <? 0)%float = false ->
                  sqrt x = Ok (PrimFloat.sqrt v)).
  { intros x v Hx Hv. unfold sqrt, math.sqrt. rewrite Hx. cbn [bind]. rewrite Hv.
    destruct (is_nan (PrimFloat.sqrt v)) eqn:E; [| reflexivity ].
    rewrite (@sqrt_nan_only_of_nan _ Hv E). reflexivity. }
  split; [| split; [ exact Hok | split; [| split ]]].
  - intros x. unfold sqrt. split.
    + intros [e [He Hk]].
      destruct (_as_number x) as [v | e0] eqn:Hx; cbn [bind] in He.
      * exists v. split; [ reflexivity |].
        destruct (v <? 0)%float eqn:Hv; [ reflexivity |].
        pose proof (Hok x v Hx Hv) as H. unfold sqrt in H. rewrite Hx in H.
        cbn [bind] in H. rewrite Hv in H. congruence.
      * injection He as <-.
        destruct (_as_number_error_kind _ Hx) as [H | ->]; [ congruence | discriminate ].
    + intros [v [Hx Hv]]. rewrite Hx. cbn [bind]. rewrite Hv.
      eexists. split; reflexivity.
  - vm_compute; reflexivity.
  - vm_compute; reflexivity.
  - intros x v H. unfold sqrt in H.
    destruct (_as_number x) as [w | e0] eqn:Hx; cbn [bind] in H; [| discriminate ].
    destruct (w <? 0)%float eqn:Hw; [ discriminate |].
    pose proof (Hok x w Hx Hw) as H'. unfold sqrt in H'. rewrite Hx in H'.
    cbn [bind] in H'. rewrite Hw in H'. rewrite H' in H. injection H as <-.
    revert Hw. rewrite !ltb_spec, sqrt_spec.
    change (Prim2SF 0) with (S754_zero false).
    destruct (Prim2SF w) as [s | s | | s m e]; try reflexivity.
    + destruct s; [ discriminate | reflexivity ].
    + destruct s; [ discriminate |]. intros _.
      unfold SF64sqrt, SFsqrt, SFsqrt_core_binary. cbv zeta.
      match goal with |- context [Z.sqrtrem ?a] => destruct (Z.sqrtrem a) as [q r] end.
      unfold binary_round_aux.
      destruct (shr_fexp prec emax q _ _) as [mrs' e'].
      destruct (shr_fexp prec emax _ e' loc_Exact) as [mrs'' e''].
      destruct (shr_m mrs''); try reflexivity.
      destruct (e'' <=? emax - prec); reflexivity.
Qed.

(** ** Number theory *)

(** [_as_int] fails with InvalidNumber, with NotAnInteger or, on an
    [int] beyond the float range, with the runtime's overflow. *)
Lemma _as_int_error_kind (x : pyval) (e : exn) :
  _as_int x = Err e ->
  kind_of e = Some InvalidNumber \/ kind_of e = Some NotAnInteger
  \/ e = OverflowError "int too large to convert to float".
Proof.
  unfold _as_int. destruct (_as_number x) as [f | e0] eqn:Hn; cbn [bind].
  - destruct (Py.is_integer f) eqn:Hi; cbn [negb].
    + destruct (is_integer_integral _ Hi) as [z [Hz _]]. rewrite Hz. discriminate.
    + intros H. injection H as <-. right. left. reflexivity.
  - intros H. injection H as <-.
    destruct (_as_number_error_kind _ Hn) as [H | H]; [ now left | right; now right ].
Qed.

Lemma fact_step (n : Z) :
  0 < n ->
  Z.of_nat (fact (Z.to_nat n)) = n * Z.of_nat (fact (Z.to_nat (n - 1))).
Proof.
  intros Hn. replace (Z.to_nat n) with (S (Z.to_nat (n - 1))) by lia.
  cbn [fact]. rewrite Nat2Z.inj_mul. f_equal. lia.
Qed.

(** X6: [factorial] fails with NegativeInput exactly on the negative
    integers; on an integer [0 <= n <= LONG_MAX] it returns [n!], so
    that [factorial(0) = 1] and [factorial(n) = n * factorial(n - 1)];
    an integer above [LONG_MAX], which [_as_int] lets through, ends in
    the library's OverflowError, outside the named kinds. *)
Theorem factorial_spec :
  (forall x, fails_with (factorial x) NegativeInput
             <-> exists n, _as_int x = Ok n /\ n < 0)
  /\ (forall x n, _as_int x = Ok n -> 0 <= n <= math.LONG_MAX ->
        factorial x = Ok (Z.of_nat (fact (Z.to_nat n))))
  /\ (forall x n, _as_int x = Ok n -> math.LONG_MAX < n ->
        factorial x
        = Err (OverflowError "factorial() argument should not exceed 9223372036854775807")
        /\ fails_unnamed (factorial x))
  /\ factorial (PyInt (2 ^ 63))
     = Err (OverflowError "factorial() argument should not exceed 9223372036854775807")
  /\ factorial (PyInt 0) = Ok 1
  /\ (forall n, 0 < n <= 2 ^ 53 ->
        exists r, factorial (PyInt (n - 1)) = Ok r
                  /\ factorial (PyInt n) = Ok (n * r)).
Proof.
  assert (Hpos : forall x n, _as_int x = Ok n -> 0 <= n <= math.LONG_MAX ->
                   factorial x = Ok (Z.of_nat (fact (Z.to_nat n)))).
  { intros x n Hx Hn. unfold factorial, math.factorial. rewrite Hx. cbn [bind].
    destruct (n <? 0) eqn:E; [ apply Z.ltb_lt in E; lia |].
    destruct (math.LONG_MAX <? n) eqn:E'; [ apply Z.ltb_lt in E'; lia | reflexivity ]. }
  assert (Hbig : forall x n, _as_int x = Ok n -> math.LONG_MAX < n ->
                   factorial x
                   = Err (OverflowError
                            "factorial() argument should not exceed 9223372036854775807")).
  { intros x n Hx Hn. unfold factorial, math.factorial. rewrite Hx. cbn [bind].
    assert (H0 : 0 < math.LONG_MAX) by reflexivity.
    destruct (n <? 0) eqn:E; [ apply Z.ltb_lt in E; lia |].
    apply Z.ltb_lt in Hn. now rewrite Hn. }
  assert (Hmax : 2 ^ 53 <= math.LONG_MAX) by (vm_compute; discriminate).
  split; [| split; [ exact Hpos | split; [| split; [| split ]]]].
  - intros x. unfold factorial. split.
    + intros [e [He Hk]].
      destruct (_as_int x) as [n | e0] eqn:Hx; cbn [bind] in He.
      * exists n. split; [ reflexivity |].
        destruct (n <? 0) eqn:E; [ now apply Z.ltb_lt |].
        unfold math.factorial in He. rewrite E in He.
        destruct (math.LONG_MAX <? n); [| discriminate ].
        injection He as <-. discriminate.
      * injection He as <-.
        destruct (_as_int_error_kind _ Hx) as [H | [H | ->]];
          [ congruence | congruence | discriminate ].
    + intros [n [Hx Hn]]. rewrite Hx. cbn [bind].
      apply Z.ltb_lt in Hn. rewrite Hn. eexists. split; reflexivity.
  - intros x n Hx Hn. split; [ exact (Hbig x n Hx Hn) |].
    eexists. split; [ exact (Hbig x n Hx Hn) | reflexivity ].
  - vm_compute; reflexivity.
  - vm_compute; reflexivity.
  - intros n Hn.
    pose proof _as_int_small as Hexact.
    exists (Z.of_nat (fact (Z.to_nat (n - 1)))). split.
    + apply Hpos; [ apply Hexact |]; lia.
    + rewrite <- fact_step by lia. apply Hpos; [ apply Hexact |]; lia.
Qed.

Lemma factorial_spec_witness :
  (exists r, factorial (PyInt (5 - 1)) = Ok r /\ factorial (PyInt 5) = Ok (5 * r))
  /\ factorial (PyFloat 0x1p+64)
     = Err (OverflowError "factorial() argument should not exceed 9223372036854775807").
Proof.
  split.
  - apply (proj2 (proj2 (proj2 (proj2 (proj2 factorial_spec)))) 5).
    split; [ reflexivity | discriminate ].
  - apply (proj1 (proj2 (proj2 factorial_spec)) (PyFloat 0x1p+64) (2 ^ 64) eq_refl).
    reflexivity.
Defined.

Lemma gcd_mul_lcm (x y : Z) : Z.gcd x y * Z.lcm x y = Z.abs (x * y).
Proof.
  unfold Z.lcm. pose proof (Z.gcd_nonneg x y) as Hg.
  rewrite <- (Z.abs_eq (Z.gcd x y)) at 1 by exact Hg.
  rewrite <- Z.abs_mul. f_equal.
  destruct (Z.eq_dec (Z.gcd x y) 0) as [E | E].
  - apply Z.gcd_eq_0 in E. destruct E as [-> ->]. reflexivity.
  - destruct (Z.gcd_divide_r x y) as [k Hk].
    remember (Z.gcd x y) as g eqn:Eg. clear Eg. subst y.
    rewrite Z.div_mul by exact E. ring.
Qed.

(** X7: [gcd] and [lcm] succeed on the same pairs of integers, return
    non-negative integers that do not depend on the order of the
    arguments, and their product is [|x * y|]; a zero argument is no
    error. *)
Theorem gcd_lcm_spec (a b : pyval) (x y : Z)
  (Ha : _as_int a = Ok x) (Hb : _as_int b = Ok y) :
  exists g l,
    gcd a b = Ok g /\ lcm a b = Ok l
    /\ gcd b a = Ok g /\ lcm b a = Ok l
    /\ 0 <= g /\ 0 <= l
    /\ g * l = Z.abs (x * y)
    /\ (g | x) /\ (g | y) /\ (x | l) /\ (y | l).
Proof.
  exists (Z.gcd x y), (Z.abs (Z.lcm x y)).
  unfold gcd, lcm, math.gcd, math.lcm. rewrite Ha, Hb. cbn [bind].
  pose proof (Z.lcm_nonneg x y) as Hl.
  rewrite (Z.gcd_comm y x), (Z.lcm_comm y x).
  rewrite (Z.abs_eq _ Hl).
  repeat split; try reflexivity.
  - apply Z.gcd_nonneg.
  - exact Hl.
  - apply gcd_mul_lcm.
  - apply Z.gcd_divide_l.
  - apply Z.gcd_divide_r.
  - apply Z.divide_lcm_l.
  - apply Z.divide_lcm_r.
Qed.

Lemma gcd_lcm_spec_witness :
  exists g l,
    gcd (PyInt 4) (PyFloat 6) = Ok g /\ lcm (PyInt 4) (PyFloat 6) = Ok l
    /\ gcd (PyFloat 6) (PyInt 4) = Ok g /\ lcm (PyFloat 6) (PyInt 4) = Ok l
    /\ 0 <= g /\ 0 <= l
    /\ g * l = Z.abs (4 * 6)
    /\ (g | 4) /\ (g | 6) /\ (4 | l) /\ (6 | l).
Proof. apply gcd_lcm_spec; vm_compute; reflexivity. Defined.

(** ** Floor and ceiling *)

Lemma floor_div_bracket (n d : Z) :
  0 < d -> (n / d) * d <= n < (n / d + 1) * d.
Proof.
  intros Hd. pose proof (Z.div_mod n d ltac:(lia)) as H.
  pose proof (Z.mod_pos_bound n d Hd) as Hm. nia.
Qed.

(** X8: [floor] and [ceil] of a finite value [q] are the integers [lo] and
    [hi] with [lo <= q < lo + 1] and [hi - 1 < q <= hi]; on an infinity
    or a NaN both fail with an error of the runtime, outside the named
    kinds. *)
Theorem floor_ceil_bracket :
  (forall x v q, _as_number x = Ok v -> F.to_Q v = Some q ->
     exists lo hi,
       floor x = Ok lo /\ ceil x = Ok hi
       /\ (inject_Z lo <= q)%Q /\ (q < inject_Z (lo + 1))%Q
       /\ (inject_Z (hi - 1) < q)%Q /\ (q <= inject_Z hi)%Q
       /\ lo <= hi <= lo + 1)
  /\ (forall x v, _as_number x = Ok v -> F.to_Q v = None ->
        fails_unnamed (floor x) /\ fails_unnamed (ceil x)).
Proof.
  split.
  - intros x v q Hx Hq. unfold floor, ceil, math.floor, math.ceil.
    rewrite Hx. cbn [bind]. unfold F.to_Q in Hq.
    destruct (Prim2SF v) as [s | s | | s m e]; try discriminate.
    + injection Hq as <-. exists 0, 0.
      repeat split; try reflexivity; unfold Qle, Qlt; simpl; lia.
    + injection Hq as <-.
      set (n := if s then Z.neg m else Z.pos m).
      destruct e as [| k | k].
      * exists (n * 2 ^ 0), (n * 2 ^ 0).
        split; [ reflexivity | split; [ reflexivity |] ].
        unfold Qle, Qlt, inject_Z; cbn [Qnum Qden]. lia.
      * exists (n * 2 ^ Z.pos k), (n * 2 ^ Z.pos k).
        split; [ reflexivity | split; [ reflexivity |] ].
        unfold Qle, Qlt, inject_Z; cbn [Qnum Qden]. lia.
      * exists (n / 2 ^ Z.pos k), (- (- n / 2 ^ Z.pos k)).
        split; [ reflexivity | split; [ reflexivity |] ].
        assert (Hd : 0 < 2 ^ Z.pos k) by (apply Z.pow_pos_nonneg; lia).
        pose proof (@floor_div_bracket n _ Hd) as H1.
        pose proof (@floor_div_bracket (- n) _ Hd) as H2.
        unfold Qle, Qlt, inject_Z; cbn [Qnum Qden].
        rewrite Pos2Z.inj_pow.
        change (Z.pos 2) with 2.
        set (d := 2 ^ Z.pos k) in *.
        set (a := n / d) in *. set (b := - n / d) in *.
        repeat split; try nia.
  - intros x v Hx Hq. unfold floor, ceil, math.floor, math.ceil.
    rewrite Hx. cbn [bind]. unfold F.to_Q in Hq.
    destruct (Prim2SF v) as [s | s | | s m e]; try discriminate;
      split; eexists; split; reflexivity.
Qed.

Lemma floor_ceil_bracket_witness :
  exists q, F.to_Q (-2.5)%float = Some q /\ (q == -5 # 2)%Q /\
  exists lo hi,
    floor (PyStr "-2.5") = Ok lo /\ ceil (PyStr "-2.5") = Ok hi
    /\ (inject_Z lo <= q)%Q /\ (q < inject_Z (lo + 1))%Q
    /\ (inject_Z (hi - 1) < q)%Q /\ (q <= inject_Z hi)%Q
    /\ lo <= hi <= lo + 1.
Proof.
  eexists. split; [ vm_compute; reflexivity |]. split; [ reflexivity |].
  apply (proj1 floor_ceil_bracket (PyStr "-2.5") (-2.5)%float);
    vm_compute; reflexivity.
Defined.

(** ** Distances *)

(** The sign given to the rounding only decides the sign of its
    result. *)
Lemma binary_round_aux_abs (s s' : bool) (m e : Z) (l : location) :
  SFabs (binary_round_aux prec emax s m e l)
  = SFabs (binary_round_aux prec emax s' m e l).
Proof.
  unfold binary_round_aux.
  destruct (shr_fexp prec emax m e l) as [mrs' e'].
  destruct (shr_fexp prec emax _ e' loc_Exact) as [mrs'' e''].
  destruct (shr_m mrs''); try reflexivity.
  destruct (e'' <=? emax - prec); reflexivity.
Qed.

Lemma binary_normalize_abs_opp (m e : Z) :
  SFabs (binary_normalize prec emax (- m) e false)
  = SFabs (binary_normalize prec emax m e false).
Proof.
  destruct m as [| p | p]; simpl; [ reflexivity | |];
    unfold binary_round;
    destruct (shl_align p e _) as [mz ez]; apply binary_round_aux_abs.
Qed.

Lemma SFabs_sub_comm (x y : spec_float) :
  SFabs (SF64sub x y) = SFabs (SF64sub y x).
Proof.
  unfold SF64sub, SFsub.
  destruct x as [sx | sx | | sx mx ex], y as [sy | sy | | sy my ey];
    try reflexivity; try (destruct sx, sy; reflexivity).
  rewrite (Z.min_comm ey ex).
  rewrite <- binary_normalize_abs_opp. f_equal. f_equal. ring.
Qed.

Lemma float_abs_sub_comm (x y : float) : abs (x - y) = abs (y - x).
Proof. apply Prim2SF_inj. rewrite !abs_spec, !sub_spec. apply SFabs_sub_comm. Qed.

Lemma abs_diff_swap (n1 n2 : list float) :
  map abs_diff (combine n1 n2) = map abs_diff (combine n2 n1).
Proof.
  revert n2. induction n1 as [| a n1 IH]; intros [| b n2]; simpl; try reflexivity.
  rewrite IH, float_abs_sub_comm. reflexivity.
Qed.

Lemma SFsub_self (x : spec_float) :
  (exists s m e, x = S754_finite s m e) \/ (exists s, x = S754_zero s) ->
  SFabs (SF64sub x x) = S754_zero false.
Proof.
  intros [[s [m [e ->]]] | [s ->]].
  - unfold SF64sub, SFsub. rewrite Z.sub_diag. reflexivity.
  - destruct s; reflexivity.
Qed.

Lemma float_abs_sub_self (x : float) :
  F.to_Q x <> None -> abs (x - x) = 0%float.
Proof.
  intros H. apply Prim2SF_inj. rewrite abs_spec, sub_spec.
  change (Prim2SF 0) with (S754_zero false). apply SFsub_self.
  unfold F.to_Q in H.
  destruct (Prim2SF x) as [s | s | | s m e]; try congruence.
  - right. now exists s.
  - left. now exists s, m, e.
Qed.

Lemma ltb_zero_nonneg (r : float) :
  SFnonneg (Prim2SF r) -> (r <? 0)%float = false.
Proof.
  rewrite ltb_spec. change (Prim2SF 0) with (S754_zero false).
  destruct (Prim2SF r) as [s | s | | s m e]; simpl; try reflexivity;
    intros ->; reflexivity.
Qed.

Lemma SFabs_nonneg (x : spec_float) : SFnonneg (SFabs x).
Proof. destruct x; simpl; auto. Qed.

Lemma binary_round_aux_nonneg (m e : Z) (l : location) :
  SFnonneg (binary_round_aux prec emax false m e l).
Proof.
  unfold binary_round_aux.
  destruct (shr_fexp prec emax m e l) as [mrs' e'].
  destruct (shr_fexp prec emax _ e' loc_Exact) as [mrs'' e''].
  destruct (shr_m mrs''); [ exact I | | exact I ].
  destruct (e'' <=? emax - prec); reflexivity.
Qed.

Lemma SFadd_nonneg (x y : spec_float) :
  SFnonneg x -> SFnonneg y -> SFnonneg (SF64add x y).
Proof.
  unfold SF64add, SFadd.
  destruct x as [sx | sx | | sx mx ex], y as [sy | sy | | sy my ey];
    simpl; intros Hx Hy; subst; auto.
  - destruct sx, sy; exact I.
  - reflexivity.
  - destruct (shl_align mx ex _) as [a ea]. destruct (shl_align my ey _) as [b eb].
    cbn [cond_Zopp fst]. change (Z.pos a + Z.pos b) with (Z.pos (a + b)).
    unfold binary_normalize, binary_round.
    destruct (shl_align (a + b) _ _) as [mz ez].
    apply binary_round_aux_nonneg.
Qed.

Lemma sum_nonneg (l : list float) (acc : float) :
  SFnonneg (Prim2SF acc) -> Forall (fun f => SFnonneg (Prim2SF f)) l ->
  SFnonneg (Prim2SF (fold_left PrimFloat.add l acc)).
Proof.
  revert acc. induction l as [| f l IH]; intros acc Ha Hl; simpl; [ exact Ha |].
  inversion Hl; subst. apply IH; [| assumption ].
  rewrite add_spec. now apply SFadd_nonneg.
Qed.

Lemma abs_diff_nonneg (l : list (float * float)) :
  Forall (fun f => SFnonneg (Prim2SF f)) (map abs_diff l).
Proof.
  induction l as [| [a b] l IH]; simpl; constructor; [| exact IH ].
  rewrite abs_spec. apply SFabs_nonneg.
Qed.

Lemma sum_zeros (l : list float) :
  Forall (fun f => f = 0%float) l -> fold_left PrimFloat.add l 0%float = 0%float.
Proof.
  induction l as [| f l IH]; intros H; simpl; [ reflexivity |].
  inversion H; subst. change (0 + 0)%float with 0%float. now apply IH.
Qed.

Lemma abs_diff_self (l : list float) :
  Forall (fun f => F.to_Q f <> None) l ->
  Forall (fun f => f = 0%float) (map abs_diff (combine l l)).
Proof.
  induction l as [| f l IH]; intros H; simpl; constructor; inversion H; subst.
  - now apply float_abs_sub_self.
  - now apply IH.
Qed.

(** X9: [absolute_difference] of two valid numbers does not depend on their
    order and is never below zero; it is zero for a finite number and
    itself, while the difference of an infinity and itself is NaN. *)
Theorem absolute_difference_metric :
  (forall a b x y, _as_number a = Ok x -> _as_number b = Ok y ->
     absolute_difference a b = absolute_difference b a
     /\ exists r, absolute_difference a b = Ok r /\ (r <? 0)%float = false)
  /\ (forall a x, _as_number a = Ok x -> F.to_Q x <> None ->
        absolute_difference a a = Ok 0%float)
  /\ absolute_difference (PyStr "inf") (PyStr "inf") = Ok nan.
Proof.
  unfold absolute_difference. split; [| split ].
  - intros a b x y Ha Hb. rewrite Ha, Hb. cbn [bind]. split.
    + now rewrite float_abs_sub_comm.
    + eexists. split; [ reflexivity |].
      apply ltb_zero_nonneg. rewrite abs_spec. apply SFabs_nonneg.
  - intros a x Ha Hx. rewrite Ha. cbn [bind]. now rewrite float_abs_sub_self.
  - vm_compute; reflexivity.
Qed.

Lemma absolute_difference_metric_witness :
  absolute_difference (PyInt 3) (PyStr "7.5") = absolute_difference (PyStr "7.5") (PyInt 3)
  /\ exists r, absolute_difference (PyInt 3) (PyStr "7.5") = Ok r /\ (r <? 0)%float = false.
Proof.
  apply (proj1 absolute_difference_metric (PyInt 3) (PyStr "7.5") 3%float 7.5%float);
    vm_compute; reflexivity.
Defined.

(** X10: [manhattan_distance] of two valid points does not depend on their
    order (different lengths included: the failure is the same), never
    returns a number below zero, and is zero from a point of finite
    coordinates to itself. *)
Theorem manhattan_distance_metric :
  (forall p1 p2 n1 n2, _as_list p1 = Ok n1 -> _as_list p2 = Ok n2 ->
     manhattan_distance p1 p2 = manhattan_distance p2 p1
     /\ (forall r, manhattan_distance p1 p2 = Ok r -> (r <? 0)%float = false))
  /\ (forall p n, _as_list p = Ok n -> Forall (fun f => F.to_Q f <> None) n ->
        manhattan_distance p p = Ok 0%float).
Proof.
  unfold manhattan_distance. split.
  - intros p1 p2 n1 n2 H1 H2. rewrite H1, H2. cbn [bind].
    rewrite (Nat.eqb_sym (List.length n2) (List.length n1)).
    destruct (List.length n1 =? List.length n2)%nat; cbn [negb].
    + split.
      * change (fun '(a, b) => abs (a - b)) with abs_diff.
        unfold Py.sum. now rewrite abs_diff_swap.
      * intros r H. injection H as <-.
        apply ltb_zero_nonneg. unfold Py.sum.
        apply sum_nonneg; [ exact I |].
        apply (abs_diff_nonneg (combine n1 n2)).
    + split; [ reflexivity | discriminate ].
  - intros p n H Hfin. rewrite H. cbn [bind].
    rewrite Nat.eqb_refl. cbn [negb]. f_equal. unfold Py.sum.
    apply sum_zeros. apply (abs_diff_self Hfin).
Qed.

Lemma manhattan_distance_metric_witness :
  manhattan_distance [PyInt 1; PyStr "2.5"] [PyInt 1; PyStr "2.5"] = Ok 0%float.
Proof.
  apply (proj2 manhattan_distance_metric [PyInt 1; PyStr "2.5"] [1; 2.5]%float).
  - vm_compute; reflexivity.
  - repeat constructor; vm_compute; discriminate.
Defined.

(** ** Logarithm *)

(** [m_log] raises nothing but the domain error. *)
Lemma m_log_error (libm_log : float -> float) (x : float) (e : exn) :
  math.m_log libm_log x = Err e -> e = math.domain_error.
Proof.
  unfold math.m_log.
  repeat match goal with
         | |- context [if ?c then _ else _] => destruct c
         end; intros H; congruence.
Qed.

Lemma unnamed_math_log (libm_log : float -> float) (x b : float) :
  unnamed (math.log libm_log x b).
Proof.
  intros e. unfold math.log.
  destruct (math.m_log libm_log x) as [num | e1] eqn:E1; cbn [bind].
  - destruct (math.m_log libm_log b) as [den | e2] eqn:E2; cbn [bind].
    + destruct (den =? 0)%float; intros H; [ injection H as <-; reflexivity | discriminate ].
    + intros H. injection H as <-. now rewrite (m_log_error _ _ E2).
  - intros H. injection H as <-. now rewrite (m_log_error _ _ E1).
Qed.

(** A number that is not above zero has no logarithm: [m_log] raises
    the domain error on it without calling the C library. *)
Lemma m_log_nonpositive (libm_log : float -> float) (b : float) :
  (b <=? 0)%float = true -> math.m_log libm_log b = Err math.domain_error.
Proof.
  rewrite leb_spec. unfold math.m_log.
  assert (Hnan : forall f, is_nan f = negb (SFeqb (Prim2SF f) (Prim2SF f))).
  { intros f. unfold is_nan. now rewrite eqb_spec. }
  assert (Hinf : forall f, is_infinity f = SFeqb (Prim2SF (abs f)) (Prim2SF infinity)).
  { intros f. unfold is_infinity. now rewrite eqb_spec. }
  rewrite !ltb_spec, !eqb_spec, (Hnan b), (Hinf b), abs_spec.
  change (Prim2SF 0) with (S754_zero false).
  change (Prim2SF infinity) with (S754_infinity false).
  destruct (Prim2SF b) as [s | s | | s m e]; try discriminate.
  - intros _. reflexivity.
  - destruct s; [| discriminate ]. intros _. reflexivity.
  - destruct s; [| discriminate ]. intros _.
    unfold SFeqb, SFltb. cbn [SFabs SFcompare].
    rewrite Z.compare_refl.
    change (Pos.compare_cont Eq m m) with (Pos.compare m m).
    rewrite Pos.compare_refl. reflexivity.
Qed.

(** X11: [log] fails with NonPositiveInput exactly when both the argument
    and the base are valid numbers and the argument is not above zero
    (an invalid base is reported first).  The base itself is not
    guarded: with an argument above zero, a base that is not above zero
    ends in the library's domain error, and the base [1] in an error
    outside the named kinds as well, whatever the C library computes. *)
Theorem log_guards (libm_log : float -> float) :
  (forall x base,
     fails_with (log libm_log x base) NonPositiveInput
     <-> exists v b, _as_number x = Ok v /\ _as_number (log_base base) = Ok b
                     /\ (v <=? 0)%float = true)
  /\ (forall x base v b,
        _as_number x = Ok v -> _as_number base = Ok b ->
        (v <=? 0)%float = false -> (b <=? 0)%float = true ->
        log libm_log x (Some base) = Err math.domain_error)
  /\ (forall x v,
        _as_number x = Ok v -> (v <=? 0)%float = false ->
        fails_unnamed (log libm_log x (Some (PyInt 0)))
        /\ (libm_log 1%float = 0%float ->
            fails_unnamed (log libm_log x (Some (PyInt 1))))).
Proof.
  split; [| split ].
  - intros x base. unfold log. fold (log_base base). split.
    + intros [e [He Hk]].
      destruct (_as_number x) as [v | e0] eqn:Hx; cbn [bind] in He.
      * destruct (_as_number (log_base base)) as [b | e1] eqn:Hb; cbn [bind] in He.
        -- exists v, b. split; [ reflexivity | split; [ reflexivity |] ].
           destruct (v <=? 0)%float; [ reflexivity |].
           rewrite (@unnamed_math_log libm_log v b e He) in Hk. discriminate.
        -- injection He as <-.
           destruct (_as_number_error_kind _ Hb) as [H | ->]; [ congruence | discriminate ].
      * injection He as <-.
        destruct (_as_number_error_kind _ Hx) as [H | ->]; [ congruence | discriminate ].
    + intros [v [b [Hx [Hb Hv]]]]. rewrite Hx, Hb. cbn [bind]. rewrite Hv.
      eexists. split; reflexivity.
  - intros x base v b Hx Hb Hv Hle. unfold log. rewrite Hx, Hb. cbn [bind].
    rewrite Hv. unfold math.log.
    destruct (math.m_log libm_log v) as [num | e1] eqn:E1; cbn [bind].
    + now rewrite (@m_log_nonpositive libm_log b Hle).
    + now rewrite (m_log_error _ _ E1).
  - intros x v Hx Hv. split.
    + unfold log. rewrite Hx.
      change (_as_number (PyInt 0)) with (Ok 0%float). cbn [bind]. rewrite Hv.
      unfold math.log.
      destruct (math.m_log libm_log v) as [num | e1] eqn:E1; cbn [bind].
      * rewrite (@m_log_nonpositive libm_log 0%float eq_refl).
        eexists. split; reflexivity.
      * rewrite (m_log_error _ _ E1). eexists. split; reflexivity.
    + intros H1. unfold log. rewrite Hx.
      change (_as_number (PyInt 1)) with (Ok 1%float). cbn [bind]. rewrite Hv.
      unfold math.log.
      destruct (math.m_log libm_log v) as [num | e1] eqn:E1; cbn [bind].
      * assert (Hden : math.m_log libm_log 1%float = Ok 0%float).
        { unfold math.m_log.
          change (is_nan 1) with false. change (is_infinity 1) with false.
          change (0 <? 1)%float with true. cbv iota. rewrite H1. reflexivity. }
        rewrite Hden. cbn [bind]. change (0 =? 0)%float with true. cbv iota.
        eexists. split; reflexivity.
      * rewrite (m_log_error _ _ E1). eexists. split; reflexivity.
Qed.

Lemma log_guards_witness :
  log libm_log_sample (PyInt 10) (Some (PyFloat (-2))) = Err math.domain_error.
Proof.
  apply (proj1 (proj2 (log_guards libm_log_sample)) (PyInt 10) (PyFloat (-2)) 10%float (-2)%float);
    reflexivity.
Defined.

(** ** Statistics on constant lists and on integers *)

Lemma ss_loop_type (x : pyval) (k : nat) (a a' : statistics.ss_acc) :
  finite_number x ->
  for_each statistics._ss_step (repeat x k) a = Ok a' ->
  statistics.ss_T a = const_T x \/ (statistics.ss_T a = PyOps.TInt /\ (0 < k)%nat) ->
  statistics.ss_T a' = const_T x.
Proof.
  intros Hfin. revert a. induction k as [| k IH]; intros a Hrun HT.
  - simpl in Hrun. injection Hrun as <-. destruct HT as [HT | [_ HT]]; [ exact HT | lia ].
  - simpl repeat in Hrun. simpl for_each in Hrun.
    destruct (statistics._ss_step a x) as [b |] eqn:Hb; cbn [bind] in Hrun;
      [| discriminate ].
    apply (IH b Hrun). left.
    unfold statistics._ss_step in Hb.
    destruct (finite_number_exact_ratio _ Hfin) as [_ [q Hq]].
    rewrite Hq in Hb. cbn [bind] in Hb.
    assert (Hc : statistics._coerce (statistics.ss_T a) (PyOps.type_of x)
                 = Ok (const_T x)).
    { destruct HT as [-> | [-> _]]; destruct x; try contradiction; reflexivity. }
    rewrite Hc in Hb. cbn [bind] in Hb. injection Hb as <-. reflexivity.
Qed.

(** X12: the variance of [n >= 2] copies of a finite number is zero: the
    [int] [0] for ints and booleans, the float [0.0] for floats. *)
Theorem variance_constant (x : pyval) (n : nat)
  (Hfin : finite_number x) (Hn : (2 <= n)%nat) :
  variance (repeat x n) = Ok (zero_of x).
Proof.
  destruct (finite_number_exact_ratio _ Hfin) as [Hty [q Hq]].
  unfold variance. rewrite repeat_length.
  destruct (n <? 2)%nat eqn:E; [ apply Nat.ltb_lt in E; lia |].
  unfold statistics.variance, statistics._ss.
  assert (Hpos : (0 < n)%nat) by lia.
  match goal with |- context [for_each _ _ ?b] =>
    destruct (@ss_loop_repeat x q n b Hty Hq (or_introl eq_refl))
      as [a' [Hrun [HT [Hc [Hsx [Hsxx Hsp]]]]]];
    pose proof (@ss_loop_type x n b a' Hfin Hrun
                  (or_intror (conj eq_refl Hpos))) as HT'
  end.
  rewrite Hrun. cbn [bind].
  cbn [statistics.ss_T statistics.ss_count statistics.ss_sx statistics.ss_sxx
       statistics.ss_special] in *. rewrite Z.add_0_l in Hc.
  rewrite Hc, Hsp, HT'.
  destruct (Z.of_nat n =? 0) eqn:E0; [ apply Z.eqb_eq in E0; lia |].
  cbn [bind].
  destruct (Z.of_nat n <? 2) eqn:E2; [ apply Z.ltb_lt in E2; lia |].
  cbn [bind].
  unfold statistics.div_count; cbn [bind]. unfold statistics._convert.
  rewrite Qred_zero; [ destruct x; try contradiction; vm_compute; reflexivity |].
  rewrite Hsx, Hsxx. unfold Qdiv.
  setoid_replace (inject_Z (Z.of_nat n) * (0 + inject_Z (Z.of_nat n) * (q * q))
                  - (0 + inject_Z (Z.of_nat n) * q) * (0 + inject_Z (Z.of_nat n) * q))%Q
    with 0%Q by ring.
  ring.
Qed.

Lemma variance_constant_witness :
  variance (repeat (PyInt 7) 3) = Ok (PyInt 0)
  /\ variance (repeat (PyFloat 2.5) 2) = Ok (PyFloat 0).
Proof.
  split.
  - apply (@variance_constant (PyInt 7) 3); [ exact I | lia ].
  - apply (@variance_constant (PyFloat 2.5) 2); [ vm_compute; discriminate | lia ].
Defined.

(** The accumulator of [_sum] after a run over ints. *)
Lemma sum_loop_ints (zs : list Z) (a : statistics.sum_acc) :
  statistics.sum_T a = PyOps.TInt ->
  exists a',
    for_each statistics._sum_step (map PyInt zs) a = Ok a'
    /\ statistics.sum_T a' = PyOps.TInt
    /\ statistics.sum_count a' = statistics.sum_count a + Z.of_nat (List.length zs)
    /\ Qeq (statistics.sum_total a') (statistics.sum_total a + inject_Z (Zsum zs))
    /\ statistics.sum_special a' = statistics.sum_special a.
Proof.
  revert a. induction zs as [| z zs IH]; intros a HT.
  - exists a. simpl. repeat split; auto; try lia. unfold Zsum. simpl. ring.
  - simpl map. simpl for_each. unfold statistics._sum_step at 1.
    cbn [statistics._exact_ratio bind PyOps.type_of]. rewrite HT.
    change (statistics._coerce PyOps.TInt PyOps.TInt) with (Ok PyOps.TInt).
    cbn [bind].
    match goal with |- context [for_each _ _ ?b] =>
      destruct (IH b eq_refl) as [a' [Hrun [HT' [Hc [Hs Hsp]]]]] end.
    exists a'. split; [ exact Hrun |].
    cbn [statistics.sum_T statistics.sum_count statistics.sum_total
         statistics.sum_special] in *.
    split; [ exact HT' |]. split; [ rewrite Hc; simpl List.length; lia |].
    split; [| exact Hsp ].
    rewrite Hs. unfold Zsum. simpl fold_right. fold (Zsum zs).
    rewrite inject_Z_plus. change (inject_Z z) with (z # 1). ring.
Qed.

Lemma Qred_inject_Z (q : Q) (z : Z) : Qeq q (inject_Z z) -> Qred q = inject_Z z.
Proof.
  intros H. rewrite (Qred_complete _ _ H). unfold Qred, inject_Z.
  pose proof (Z.ggcd_gcd z 1) as Hg.
  pose proof (Z.ggcd_correct_divisors z 1) as Hd.
  destruct (Z.ggcd z (Z.pos 1)) as [g [aa bb]]. cbn [fst snd] in *.
  rewrite Z.gcd_1_r in Hg. subst g. destruct Hd as [Ha Hb].
  rewrite Z.mul_1_l in Ha, Hb. subst aa bb. reflexivity.
Qed.

(** X13: the mean of a non-empty list of ints is an [int], the exact
    quotient, when the count divides the sum, and is never an [int]
    otherwise. *)
Theorem mean_of_ints (zs : list Z) (Hne : zs <> []) :
  let s := Zsum zs in
  let n := Z.of_nat (List.length zs) in
  ((n | s) -> mean (map PyInt zs) = Ok (PyInt (s / n)))
  /\ (~ (n | s) -> forall r, mean (map PyInt zs) = Ok r -> exists f, r = PyFloat f).
Proof.
  intros s n.
  assert (Hn : 0 < n) by (unfold n; destruct zs; [ contradiction | simpl; lia ]).
  assert (Hmean : mean (map PyInt zs) = statistics.mean (map PyInt zs))
    by (destruct zs; [ contradiction | reflexivity ]).
  rewrite Hmean. unfold statistics.mean, statistics._sum.
  match goal with |- context [for_each _ _ ?b] =>
    destruct (@sum_loop_ints zs b eq_refl) as [a' [Hrun [HT [Hc [Hs Hsp]]]]] end.
  rewrite Hrun. cbn [bind].
  cbn [statistics.sum_T statistics.sum_count statistics.sum_total
       statistics.sum_special] in *.
  rewrite Z.add_0_l in Hc. fold n in Hc. fold s in Hs.
  rewrite Hsp, HT, Hc. cbn [bind].
  destruct (n <? 1) eqn:E1; [ apply Z.ltb_lt in E1; lia |].
  unfold statistics.div_count. cbn [bind]. unfold statistics._convert.
  assert (Hq : Qeq (statistics.sum_total a' / (n # 1)) (s # Z.to_pos n)).
  { rewrite Hs. unfold Qeq, Qdiv, Qinv, Qmult, Qplus, inject_Z. cbn [Qnum Qden].
    destruct n as [| p | p] eqn:En; try lia. cbn [Qnum Qden Z.to_pos]. 
    rewrite !Pos2Z.inj_mul. ring. }
  split.
  - intros [k Hk].
    assert (Hdiv : s / n = k) by (rewrite Hk; apply Z.div_mul; lia).
    rewrite Hdiv.
    rewrite (@Qred_inject_Z _ k); [ reflexivity |].
    rewrite Hq. unfold Qeq, inject_Z. cbn [Qnum Qden].
    rewrite Z2Pos.id by lia. lia.
  - intros Hnd r.
    set (q := Qred (statistics.sum_total a' / (n # 1))).
    destruct (Z.pos (Qden q) =? 1) eqn:Ed.
    + exfalso. apply Hnd. apply Z.eqb_eq in Ed.
      pose proof (Qred_correct (statistics.sum_total a' / (n # 1))) as Hr.
      fold q in Hr. rewrite Hq in Hr. unfold Qeq in Hr. cbn [Qnum Qden] in Hr.
      rewrite Z2Pos.id in Hr by lia. rewrite Ed in Hr.
      exists (Qnum q). lia.
    + destruct (PyOps.int_truediv (Qnum q) (Z.pos (Qden q))) as [f | e];
        cbn [bind]; intros H; [| discriminate ].
      injection H as <-. now exists f.
Qed.

Lemma mean_of_ints_witness :
  mean (map PyInt [1; 2; 3]) = Ok (PyInt (Zsum [1; 2; 3] / 3))
  /\ forall r, mean (map PyInt [1; 2]) = Ok r -> exists f, r = PyFloat f.
Proof.
  split.
  - apply (proj1 (@mean_of_ints [1; 2; 3] ltac:(discriminate))).
    exists 2. reflexivity.
  - apply (proj2 (@mean_of_ints [1; 2] ltac:(discriminate))).
    intros [k Hk]. change (3 = k * 2) in Hk. lia.
Defined.

(** ** The median of integers *)

Lemma insert_ints (x : Z) (l : list Z) :
  StronglySorted Z.le l ->
  exists l', PyOps.insert (PyInt x) (map PyInt l) = Ok (map PyInt l')
             /\ Permutation l' (x :: l) /\ StronglySorted Z.le l'.
Proof.
  induction l as [| y l IH]; intros Hs.
  - exists [x]. repeat split; [ apply Permutation_refl | repeat constructor ].
  - cbn [map PyOps.insert PyOps.lt PyOps.as_int bind].
    inversion Hs as [| ? ? Hs' Hy]; subst.
    destruct (y <? x) eqn:E.
    + destruct (IH Hs') as [l' [Hi [Hp Hs'']]]. rewrite Hi. cbn [bind].
      exists (y :: l'). split; [ reflexivity |]. split.
      * apply Permutation_trans with (y :: x :: l);
          [ now apply perm_skip | apply perm_swap ].
      * constructor; [ exact Hs'' |].
        apply Forall_forall. intros z Hz.
        apply (Permutation_in _ Hp) in Hz. destruct Hz as [<- | Hz].
        -- apply Z.ltb_lt in E. lia.
        -- rewrite Forall_forall in Hy. now apply Hy.
    + exists (x :: y :: l). split; [ reflexivity |].
      split; [ apply Permutation_refl |].
      apply Z.ltb_ge in E. constructor; [ exact Hs |].
      constructor; [ exact E |].
      rewrite Forall_forall in *. intros z Hz. specialize (Hy z Hz). lia.
Qed.

(** On ints the sort returns the data in ascending order. *)
Lemma sorted_ints (zs : list Z) :
  exists srt, PyOps.sorted (map PyInt zs) = Ok (map PyInt srt)
              /\ Permutation srt zs /\ StronglySorted Z.le srt.
Proof.
  unfold PyOps.sorted. induction zs as [| z zs IH].
  - exists []. repeat split; constructor.
  - destruct IH as [srt [Hr [Hp Hs]]]. cbn [map PyOps.sorted_rev]. rewrite Hr.
    cbn [bind]. destruct (insert_ints z Hs) as [l' [Hi [Hp' Hs']]].
    exists l'. split; [ exact Hi |]. split; [| exact Hs' ].
    apply Permutation_trans with (z :: srt); [ exact Hp' | now apply perm_skip ].
Qed.

Lemma nth_PyInt (k : nat) (l : list Z) :
  (k < List.length l)%nat -> nth k (map PyInt l) PyNone = PyInt (nth k l 0).
Proof.
  intros H. rewrite (nth_indep _ PyNone (PyInt 0)) by now rewrite length_map.
  apply (map_nth PyInt).
Qed.

(** X14: [median] of a non-empty list of ints: with [srt] the data in
    ascending order, the middle element, an [int], when the length is
    odd, and half the sum of the two middle elements, as a float, when
    it is even. *)
Theorem median_of_ints (zs : list Z) (Hne : zs <> []) :
  exists srt,
    Permutation srt zs /\ StronglySorted Z.le srt
    /\ let n := List.length zs in
       ((n mod 2 = 1)%nat ->
        median (map PyInt zs) = Ok (PyInt (nth (n / 2) srt 0)))
       /\ ((n mod 2 = 0)%nat ->
           median (map PyInt zs)
           = (f <- PyOps.int_truediv (nth (n / 2 - 1) srt 0 + nth (n / 2) srt 0) 2 ;;
              Ok (PyFloat f))).
Proof.
  destruct (sorted_ints zs) as [srt [Hr [Hp Hs]]].
  exists srt. split; [ exact Hp |]. split; [ exact Hs |].
  pose proof (Permutation_length Hp) as Hlen.
  assert (Hmed : median (map PyInt zs) = statistics.median (map PyInt zs))
    by (destruct zs; [ contradiction | reflexivity ]).
  assert (Hpos : (0 < List.length zs)%nat)
    by (destruct zs; [ contradiction | simpl; lia ]).
  cbv zeta. rewrite Hmed. unfold statistics.median. rewrite Hr. cbn [bind].
  rewrite length_map, Hlen.
  destruct (List.length zs =? 0)%nat eqn:E0; [ apply Nat.eqb_eq in E0; lia |].
  pose proof (Nat.div_lt (List.length zs) 2 Hpos ltac:(lia)) as Hhalf.
  split; intros Hpar; rewrite Hpar; cbn [Nat.eqb].
  - now rewrite nth_PyInt by lia.
  - assert (Hge : (1 <= List.length zs / 2)%nat).
    { pose proof (Nat.div_mod_eq (List.length zs) 2). lia. }
    rewrite !nth_PyInt by lia. reflexivity.
Qed.

Lemma median_of_ints_witness :
  exists srt,
    Permutation srt [3; 1; 2] /\ StronglySorted Z.le srt
    /\ let n := List.length [3; 1; 2] in
       ((n mod 2 = 1)%nat ->
        median (map PyInt [3; 1; 2]) = Ok (PyInt (nth (n / 2) srt 0)))
       /\ ((n mod 2 = 0)%nat ->
           median (map PyInt [3; 1; 2])
           = (f <- PyOps.int_truediv (nth (n / 2 - 1) srt 0 + nth (n / 2) srt 0) 2 ;;
              Ok (PyFloat f))).
Proof. apply (@median_of_ints [3; 1; 2]). discriminate. Defined.

(** ** Absolute value *)

Lemma SFabs_idem (x : spec_float) : SFabs (SFabs x) = SFabs x.
Proof. destruct x; reflexivity. Qed.

(** X15: [abs_val] never returns a number below zero, returns its own
    results unchanged, and is [absolute_difference] from zero and the
    absolute value of what [subtract] returns. *)
Theorem abs_val_spec (x : pyval) (v : float) (Hx : _as_number x = Ok v) :
  exists r,
    abs_val x = Ok r
    /\ (r <? 0)%float = false
    /\ abs_val (PyFloat r) = Ok r
    /\ absolute_difference x (PyInt 0) = Ok r
    /\ forall y w d, _as_number y = Ok w -> subtract [x; y] = Ok d ->
         absolute_difference x y = abs_val (PyFloat d).
Proof.
  exists (abs v). unfold abs_val, absolute_difference. rewrite Hx. cbn [bind].
  split; [ reflexivity |].
  split.
  { rewrite ltb_spec, abs_spec. change (Prim2SF 0) with (S754_zero false).
    destruct (Prim2SF v) as [s | s | | s m e]; reflexivity. }
  split.
  { cbn [_as_number Py.to_float bind]. f_equal.
    apply Prim2SF_inj. rewrite !abs_spec. apply SFabs_idem. }
  split.
  { change (_as_number (PyInt 0)) with (Ok 0%float). cbn [bind]. f_equal.
    apply Prim2SF_inj. rewrite !abs_spec, sub_spec.
    change (Prim2SF 0) with (S754_zero false).
    destruct (Prim2SF v) as [[|] | | |]; reflexivity. }
  intros y w d Hy Hd. rewrite Hy. cbn [bind].
  unfold subtract, _as_list in Hd. cbn [list_comp] in Hd. rewrite Hx, Hy in Hd.
  cbn [bind hd tl for_each] in Hd. injection Hd as <-. reflexivity.
Qed.

Lemma abs_val_spec_witness :
  exists r,
    abs_val (PyStr "-2.5") = Ok r
    /\ (r <? 0)%float = false
    /\ abs_val (PyFloat r) = Ok r
    /\ absolute_difference (PyStr "-2.5") (PyInt 0) = Ok r
    /\ forall y w d, _as_number y = Ok w -> subtract [PyStr "-2.5"; y] = Ok d ->
         absolute_difference (PyStr "-2.5") y = abs_val (PyFloat d).
Proof. apply (@abs_val_spec (PyStr "-2.5") (-2.5)%float). vm_compute; reflexivity. Defined.

(** ** Degrees and radians *)

Lemma binary_round_aux_opp (s : bool) (m e : Z) (l : location) :
  SFopp (binary_round_aux prec emax s m e l)
  = binary_round_aux prec emax (negb s) m e l.
Proof.
  unfold binary_round_aux.
  destruct (shr_fexp prec emax m e l) as [mrs' e'].
  destruct (shr_fexp prec emax _ e' loc_Exact) as [mrs'' e''].
  destruct (shr_m mrs''); try reflexivity.
  destruct (e'' <=? emax - prec); reflexivity.
Qed.

Lemma SFmul_opp_l (x c : spec_float) :
  SF64mul (SFopp x) c = SFopp (SF64mul x c).
Proof.
  unfold SF64mul, SFmul.
  destruct x as [sx | sx | | sx mx ex], c as [sc | sc | | sc mc ec];
    cbn [SFopp]; try reflexivity; try (now rewrite Bool.negb_xorb_l).
  rewrite binary_round_aux_opp. now rewrite Bool.negb_xorb_l.
Qed.

Lemma float_mul_opp_l (x c : float) : (- x * c = - (x * c))%float.
Proof. apply Prim2SF_inj. rewrite opp_spec, !mul_spec, opp_spec. apply SFmul_opp_l. Qed.

(** X16: the two angle conversions never fail on a float and are odd
    functions: the conversion of [-v] is the negation of the conversion
    of [v], zeros and NaN included.  A finite angle in radians can
    convert to an infinite number of degrees. *)
Theorem angle_conversions_odd :
  (forall v, exists r,
     degrees_to_radians (PyFloat v) = Ok r
     /\ degrees_to_radians (PyFloat (- v)) = Ok (- r)%float)
  /\ (forall v, exists d,
        radians_to_degrees (PyFloat v) = Ok d
        /\ radians_to_degrees (PyFloat (- v)) = Ok (- d)%float)
  /\ (exists x, F.to_Q x <> None /\ radians_to_degrees (PyFloat x) = Ok infinity).
Proof.
  unfold degrees_to_radians, radians_to_degrees, math.radians, math.degrees.
  cbn [_as_number Py.to_float bind].
  split; [| split ].
  - intros v. eexists. split; [ reflexivity |]. now rewrite float_mul_opp_l.
  - intros v. eexists. split; [ reflexivity |]. now rewrite float_mul_opp_l.
  - exists 0x1p+1020%float. split; [ vm_compute; discriminate | vm_compute; reflexivity ].
Qed.
